(** * The instances router of arpas-backend, embedded and verified

    Source files: [app/models.py] (entity model, storage handle) and
    [app/routes/instances_routes.py] (the five request handlers).

    The handlers are written against an ORM session.  The embedding keeps
    that shape: a request handler is a computation in a state-and-exception
    monad over a session, the session holds the tables of the database, the
    objects it has loaded (by reference, so that an attribute assignment on
    a loaded object is seen by the next [db_commit]) and its unit of work
    (pending inserts and deletes).  A route runs its handler in a fresh
    session and turns the outcome into an HTTP response.  Two behaviours of
    the libraries under the router are part of the embedding because they
    decide what a caller sees: the database driver refuses an id outside
    the signed 64-bit range, which ends the request in a server error, and
    the web framework sends no body under a status code that allows
    none. *)

From Stdlib Require Import ZArith List String Bool Lia.
Import ListNotations.
Local Open Scope Z_scope.

(** ** Entity model: [app/models.py] *)

(** [class Item(Base)].  Every column but the primary key is nullable,
    which is what [Column] declares when nothing else is said. *)
Module Item.
Record t : Type := mk {
    id : Z;
    name : option string;
    description : option string;
    model_data : option (list Byte.byte) }.
End Item.

(** Modelled from the spec: the [Project] row class.  [app.models.Project]
    is imported by the router but its declaration is not part of the
    sources at hand; the specification names its primary key and nothing
    else, and the router reads nothing else. *)
Module Project.
Record t : Type := mk { id : Z }.
End Project.

(** Modelled from the spec: the request schema [app.schemas.InstanceCreate]
    (two foreign keys and nine transform fields, all required).  The router
    reads exactly these eleven attributes.  The type [num] of a transform
    value is left open: the router only ever copies such values. *)
Module InstanceCreate.
Record t (num : Type) : Type := mk {
    project_id : Z;
    item_id : Z;
    position_x : num;
    position_y : num;
    position_z : num;
    rotation_x : num;
    rotation_y : num;
    rotation_z : num;
    scale_x : num;
    scale_y : num;
    scale_z : num }.
Arguments mk {num}.
Arguments project_id {num}.
Arguments item_id {num}.
Arguments position_x {num}.
Arguments position_y {num}.
Arguments position_z {num}.
Arguments rotation_x {num}.
Arguments rotation_y {num}.
Arguments rotation_z {num}.
Arguments scale_x {num}.
Arguments scale_y {num}.
Arguments scale_z {num}.
End InstanceCreate.

(** A row of the [instances] table: the primary key is an integer that is
    never null, the other eleven columns are those the router writes. *)
Module InstanceRow.
Record t (num : Type) : Type := mk {
    id : Z;
    project_id : Z;
    item_id : Z;
    position_x : num;
    position_y : num;
    position_z : num;
    rotation_x : num;
    rotation_y : num;
    rotation_z : num;
    scale_x : num;
    scale_y : num;
    scale_z : num }.
Arguments mk {num}.
Arguments id {num}.
Arguments project_id {num}.
Arguments item_id {num}.
Arguments position_x {num}.
Arguments position_y {num}.
Arguments position_z {num}.
Arguments rotation_x {num}.
Arguments rotation_y {num}.
Arguments rotation_z {num}.
Arguments scale_x {num}.
Arguments scale_y {num}.
Arguments scale_z {num}.
End InstanceRow.

(** Modelled from the spec: the mapped class [app.models.Instance], through
    the attributes the router names.  An object of the class has
    [id = None] from its construction until the flush that inserts it. *)
Module Instance.
Record t (num : Type) : Type := mk {
    id : option Z;
    project_id : Z;
    item_id : Z;
    position_x : num;
    position_y : num;
    position_z : num;
    rotation_x : num;
    rotation_y : num;
    rotation_z : num;
    scale_x : num;
    scale_y : num;
    scale_z : num }.
Arguments mk {num}.
Arguments id {num}.
Arguments project_id {num}.
Arguments item_id {num}.
Arguments position_x {num}.
Arguments position_y {num}.
Arguments position_z {num}.
Arguments rotation_x {num}.
Arguments rotation_y {num}.
Arguments rotation_z {num}.
Arguments scale_x {num}.
Arguments scale_y {num}.
Arguments scale_z {num}.

(** Attribute assignment, one function per attribute. *)
Definition set_id {num} (v : option Z) (o : t num) : t num :=
    mk v (project_id o) (item_id o)
       (position_x o) (position_y o) (position_z o)
       (rotation_x o) (rotation_y o) (rotation_z o)
       (scale_x o) (scale_y o) (scale_z o).
Definition set_project_id {num} (v : Z) (o : t num) : t num :=
    mk (id o) v (item_id o)
       (position_x o) (position_y o) (position_z o)
       (rotation_x o) (rotation_y o) (rotation_z o)
       (scale_x o) (scale_y o) (scale_z o).
Definition set_item_id {num} (v : Z) (o : t num) : t num :=
    mk (id o) (project_id o) v
       (position_x o) (position_y o) (position_z o)
       (rotation_x o) (rotation_y o) (rotation_z o)
       (scale_x o) (scale_y o) (scale_z o).
Definition set_position_x {num} (v : num) (o : t num) : t num :=
    mk (id o) (project_id o) (item_id o)
       v (position_y o) (position_z o)
       (rotation_x o) (rotation_y o) (rotation_z o)
       (scale_x o) (scale_y o) (scale_z o).
Definition set_position_y {num} (v : num) (o : t num) : t num :=
    mk (id o) (project_id o) (item_id o)
       (position_x o) v (position_z o)
       (rotation_x o) (rotation_y o) (rotation_z o)
       (scale_x o) (scale_y o) (scale_z o).
Definition set_position_z {num} (v : num) (o : t num) : t num :=
    mk (id o) (project_id o) (item_id o)
       (position_x o) (position_y o) v
       (rotation_x o) (rotation_y o) (rotation_z o)
       (scale_x o) (scale_y o) (scale_z o).
Definition set_rotation_x {num} (v : num) (o : t num) : t num :=
    mk (id o) (project_id o) (item_id o)
       (position_x o) (position_y o) (position_z o)
       v (rotation_y o) (rotation_z o)
       (scale_x o) (scale_y o) (scale_z o).
Definition set_rotation_y {num} (v : num) (o : t num) : t num :=
    mk (id o) (project_id o) (item_id o)
       (position_x o) (position_y o) (position_z o)
       (rotation_x o) v (rotation_z o)
       (scale_x o) (scale_y o) (scale_z o).
Definition set_rotation_z {num} (v : num) (o : t num) : t num :=
    mk (id o) (project_id o) (item_id o)
       (position_x o) (position_y o) (position_z o)
       (rotation_x o) (rotation_y o) v
       (scale_x o) (scale_y o) (scale_z o).
Definition set_scale_x {num} (v : num) (o : t num) : t num :=
    mk (id o) (project_id o) (item_id o)
       (position_x o) (position_y o) (position_z o)
       (rotation_x o) (rotation_y o) (rotation_z o)
       v (scale_y o) (scale_z o).
Definition set_scale_y {num} (v : num) (o : t num) : t num :=
    mk (id o) (project_id o) (item_id o)
       (position_x o) (position_y o) (position_z o)
       (rotation_x o) (rotation_y o) (rotation_z o)
       (scale_x o) v (scale_z o).
Definition set_scale_z {num} (v : num) (o : t num) : t num :=
    mk (id o) (project_id o) (item_id o)
       (position_x o) (position_y o) (position_z o)
       (rotation_x o) (rotation_y o) (rotation_z o)
       (scale_x o) (scale_y o) v.

(** The object the ORM builds from a row it has selected. *)
Definition of_row {num} (r : InstanceRow.t num) : t num :=
    mk (Some (InstanceRow.id r))
       (InstanceRow.project_id r) (InstanceRow.item_id r)
       (InstanceRow.position_x r) (InstanceRow.position_y r)
       (InstanceRow.position_z r)
       (InstanceRow.rotation_x r) (InstanceRow.rotation_y r)
       (InstanceRow.rotation_z r)
       (InstanceRow.scale_x r) (InstanceRow.scale_y r)
       (InstanceRow.scale_z r).

(** The row a flush writes for an object, under primary key [pk]. *)
Definition to_row {num} (pk : Z) (o : t num) : InstanceRow.t num :=
    InstanceRow.mk pk (project_id o) (item_id o)
       (position_x o) (position_y o) (position_z o)
       (rotation_x o) (rotation_y o) (rotation_z o)
       (scale_x o) (scale_y o) (scale_z o).
End Instance.

(** Modelled from the spec: the response schema [app.schemas.InstanceRead]
    (the eleven fields of [InstanceCreate] and the server-assigned [id]). *)
Module InstanceRead.
Record t (num : Type) : Type := mk {
    id : Z;
    project_id : Z;
    item_id : Z;
    position_x : num;
    position_y : num;
    position_z : num;
    rotation_x : num;
    rotation_y : num;
    rotation_z : num;
    scale_x : num;
    scale_y : num;
    scale_z : num }.
Arguments mk {num}.
Arguments id {num}.
Arguments project_id {num}.
Arguments item_id {num}.
Arguments position_x {num}.
Arguments position_y {num}.
Arguments position_z {num}.
Arguments rotation_x {num}.
Arguments rotation_y {num}.
Arguments rotation_z {num}.
Arguments scale_x {num}.
Arguments scale_y {num}.
Arguments scale_z {num}.

(** Serialising an [Instance] object through the schema: every field is
      read off the object; an object without a primary key does not
      validate. *)
Definition from_orm {num} (o : Instance.t num) : option (t num) :=
    match Instance.id o with
    | None => None
    | Some k =>
        Some (mk k (Instance.project_id o) (Instance.item_id o)
                (Instance.position_x o) (Instance.position_y o)
                (Instance.position_z o)
                (Instance.rotation_x o) (Instance.rotation_y o)
                (Instance.rotation_z o)
                (Instance.scale_x o) (Instance.scale_y o)
                (Instance.scale_z o))
    end.
End InstanceRead.

(** ** Generic list helpers *)

(** Overwrite position [n] of a list; nothing happens out of range. *)
Fixpoint update {A : Type} (n : nat) (x : A) (l : list A) : list A :=
  match l, n with
  | [], _ => []
  | _ :: l', O => x :: l'
  | y :: l', S n' => y :: update n' x l'
  end.

(** ** Outcomes of a handler and of a request *)

(** What a handler can raise: the router's own [HTTPException], or anything
    else (an error of the ORM or of the engine), which nothing catches. *)
Inductive Exception : Type :=
| HTTPException (status_code : Z) (detail : string)
| Unhandled.

Inductive Result (A : Type) : Type :=
| Return (a : A)
| Raise (e : Exception).
Arguments Return {A}.
Arguments Raise {A}.

(** An HTTP response: the declared status with the serialised return value
    of the handler, the status and detail of an [HTTPException], or a
    server error for anything else. *)
Inductive Response (A : Type) : Type :=
| JSONResponse (status_code : Z) (content : A)
| ErrorResponse (status_code : Z) (detail : string)
| InternalServerError.
Arguments JSONResponse {A}.
Arguments ErrorResponse {A}.
Arguments InternalServerError {A}.

(** ** What is sent for a response *)

(** The body of a response as sent: the serialised content, the
    [{"detail": ...}] object of an [HTTPException], a plain text, or
    nothing. *)
Inductive Body (A : Type) : Type :=
| Content (a : A)
| Detail (detail : string)
| PlainText (text : string)
| NoBody.
Arguments Content {A}.
Arguments Detail {A}.
Arguments PlainText {A}.
Arguments NoBody {A}.

(** The framework's rule for the status codes that carry a body: none
    below 200, and not 204, 205 or 304. *)
Definition is_body_allowed_for_status_code (status_code : Z) : bool :=
  negb ((status_code <? 200) || (status_code =? 204) ||
        (status_code =? 205) || (status_code =? 304)).

(** What the framework sends for a response: the status code, and the
    body only for a status code that allows one; the value a handler
    returned under another status code is dropped.  A server error is sent
    as the plain text "Internal Server Error". *)
Definition sent {A : Type} (r : Response A) : Z * Body A :=
  match r with
  | JSONResponse c a =>
      (c, if is_body_allowed_for_status_code c then Content a else NoBody)
  | ErrorResponse c d =>
      (c, if is_body_allowed_for_status_code c then Detail d else NoBody)
  | InternalServerError => (500, PlainText "Internal Server Error")
  end.


Section InstancesRouter.

Context {num : Type}.

(** ** Storage handle: [engine], [SessionLocal] *)

(** The three tables behind [engine]. *)
Record Database : Type := mkDatabase {
  projects : list Project.t;
  items : list Item.t;
  instances : list (InstanceRow.t num) }.

(** A reference to an [Instance] object: its position in the heap. *)
Definition ref : Type := nat.

(** A session: the database it is bound to, the [Instance] objects created
    or loaded during the request, the identity map (primary key under
    which a persistent object was loaded or inserted, and the object), and
    the unit of work ([new]: objects passed to [add], [deleted]: objects
    passed to [delete]).  Attribute changes of persistent objects are read
    off the heap at the next flush. *)
Record Session : Type := mkSession {
  database : Database;
  heap : list (Instance.t num);
  identity_map : list (Z * ref);
  new : list ref;
  deleted : list ref }.

(** [SessionLocal()]: a session with nothing loaded and nothing pending. *)
Definition SessionLocal (db : Database) : Session :=
  mkSession db [] [] [] [].

Definition set_instances (rows : list (InstanceRow.t num)) (s : Session)
  : Session :=
  mkSession (mkDatabase (projects (database s)) (items (database s)) rows)
            (heap s) (identity_map s) (new s) (deleted s).

Definition set_heap (h : list (Instance.t num)) (s : Session) : Session :=
  mkSession (database s) h (identity_map s) (new s) (deleted s).

Definition set_identity_map (m : list (Z * ref)) (s : Session) : Session :=
  mkSession (database s) (heap s) m (new s) (deleted s).

Definition set_new (l : list ref) (s : Session) : Session :=
  mkSession (database s) (heap s) (identity_map s) l (deleted s).

Definition set_deleted (l : list ref) (s : Session) : Session :=
  mkSession (database s) (heap s) (identity_map s) (new s) l.

(** ** Handlers: state and exceptions *)

Definition Handler (A : Type) : Type := Session -> Result A * Session.

Definition ret {A : Type} (a : A) : Handler A := fun s => (Return a, s).

Definition raise {A : Type} (e : Exception) : Handler A :=
  fun s => (Raise e, s).

Definition andThen {A B : Type} (m : Handler A) (k : A -> Handler B)
  : Handler B :=
  fun s =>
    match m s with
    | (Return a, s') => k a s'
    | (Raise e, s') => (Raise e, s')
    end.

Notation "x <- m ;; k" := (andThen m (fun x => k))
  (at level 61, m at next level, right associativity).
Notation "m ;; k" := (andThen m (fun _ => k))
  (at level 61, right associativity).

(** Run [f] on every element of a list, left to right, stopping at the
    first exception. *)
Fixpoint for_each {A : Type} (f : A -> Handler unit) (l : list A)
  : Handler unit :=
  match l with
  | [] => ret tt
  | x :: l' => f x ;; for_each f l'
  end.

(** ** The engine: SQL on the [instances] table *)

Definition pk_is (k : Z) (r : InstanceRow.t num) : bool :=
  InstanceRow.id r =? k.

(** [SELECT ... WHERE id = k LIMIT 1]. *)
Definition select_first (k : Z) (rows : list (InstanceRow.t num))
  : option (InstanceRow.t num) :=
  find (pk_is k) rows.

(** [UPDATE ... SET <all columns> WHERE id = k]. *)
Definition sql_update (k : Z) (r' : InstanceRow.t num)
  (rows : list (InstanceRow.t num)) : list (InstanceRow.t num) :=
  map (fun r => if pk_is k r then r' else r) rows.

(** [DELETE ... WHERE id = k]. *)
Definition sql_delete (k : Z) (rows : list (InstanceRow.t num))
  : list (InstanceRow.t num) :=
  filter (fun r => negb (pk_is k r)) rows.

(** The largest primary key in use, if any. *)
Fixpoint max_rowid (rows : list (InstanceRow.t num)) : option Z :=
  match rows with
  | [] => None
  | r :: rows' =>
      Some (match max_rowid rows' with
            | None => InstanceRow.id r
            | Some m => Z.max (InstanceRow.id r) m
            end)
  end.

(** The key SQLite gives to a row inserted without one ([DATABASE_URL] is
    an SQLite file and the key column is an [Integer] primary key): one
    more than the largest key in use, 1 in an empty table. *)
Definition next_rowid (rows : list (InstanceRow.t num)) : Z :=
  match max_rowid rows with
  | None => 1
  | Some m => m + 1
  end.

(** ** The ORM session: queries *)

(** The integers the SQLite driver can bind as a statement parameter:
    those of the signed 64-bit range. *)
Definition fits_int64 (k : Z) : bool :=
  (- 2 ^ 63 <=? k) && (k <=? 2 ^ 63 - 1).

(** [.first()] of a query filtered on [id == k], given the row the select
    finds.  The driver raises [OverflowError] for a [k] that it cannot
    bind, and no handler catches it.  A key stored in a table can be
    bound, so a [k] that cannot is the key of no row; the refusal is
    therefore written on the branch where no row is found. *)
Definition first_or_refuse {A : Type} (k : Z) (found : option A)
  : Result (option A) :=
  match found with
  | Some x => Return (Some x)
  | None => if fits_int64 k then Return None else Raise Unhandled
  end.

(** [db.query(Project).filter(Project.id == k).first()].  The router only
    tests the result against [None], so the row itself is returned. *)
Definition query_Project_first (k : Z) : Handler (option Project.t) :=
  fun s =>
    (first_or_refuse k
       (find (fun p => Project.id p =? k) (projects (database s))), s).

(** [db.query(Item).filter(Item.id == k).first()]. *)
Definition query_Item_first (k : Z) : Handler (option Item.t) :=
  fun s =>
    (first_or_refuse k
       (find (fun i => Item.id i =? k) (items (database s))), s).

(** Turning a selected row into an object: the object already in the
    identity map under the row's key if there is one (its attributes are
    left as they are), a new object otherwise. *)
Definition load (row : InstanceRow.t num) : Handler ref :=
  fun s =>
    match find (fun e => fst e =? InstanceRow.id row) (identity_map s) with
    | Some (_, o) => (Return o, s)
    | None =>
        let o := List.length (heap s) in
        (Return o,
         set_identity_map (identity_map s ++ [(InstanceRow.id row, o)])
           (set_heap (heap s ++ [Instance.of_row row]) s))
    end.

(** [db.query(Instance).filter(Instance.id == k).first()]. *)
Definition query_Instance_first (k : Z) : Handler (option ref) :=
  fun s =>
    match first_or_refuse k (select_first k (instances (database s))) with
    | Raise e => (Raise e, s)
    | Return None => (Return None, s)
    | Return (Some row) => (o <- load row ;; ret (Some o)) s
    end.

Fixpoint load_all (rows : list (InstanceRow.t num)) : Handler (list ref) :=
  match rows with
  | [] => ret []
  | row :: rows' =>
      o <- load row ;;
      os <- load_all rows' ;;
      ret (o :: os)
  end.

(** [db.query(Instance).all()]. *)
Definition query_Instance_all : Handler (list ref) :=
  fun s => load_all (instances (database s)) s.

(** ** The ORM session: objects *)

(** [Instance(...)]: a new object, known to no session yet. *)
Definition construct (o : Instance.t num) : Handler ref :=
  fun s => (Return (List.length (heap s)), set_heap (heap s ++ [o]) s).

(** [obj.attr = v], with [f] the assignment. *)
Definition setattr (o : ref) (f : Instance.t num -> Instance.t num)
  : Handler unit :=
  fun s =>
    match nth_error (heap s) o with
    | Some obj => (Return tt, set_heap (update o (f obj) (heap s)) s)
    | None => (Raise Unhandled, s)
    end.

Definition persistent (o : ref) (s : Session) : bool :=
  existsb (fun e => Nat.eqb (snd e) o) (identity_map s).

Definition pending (o : ref) (s : Session) : bool :=
  existsb (Nat.eqb o) (new s).

(** [db.add(obj)]: schedule an insert, unless the session has the object
    already. *)
Definition db_add (o : ref) : Handler unit :=
  fun s =>
    if persistent o s || pending o s then (Return tt, s)
    else (Return tt, set_new (new s ++ [o]) s).

(** [db.delete(obj)]: schedule a delete; only a persistent object can be
    deleted. *)
Definition db_delete (o : ref) : Handler unit :=
  fun s =>
    if persistent o s then (Return tt, set_deleted (deleted s ++ [o]) s)
    else (Raise Unhandled, s).

(** ** The ORM session: flush, commit, refresh *)

(** The key under which the session holds a persistent object. *)
Definition identity_key (o : ref) (s : Session) : option Z :=
  option_map fst (find (fun e => Nat.eqb (snd e) o) (identity_map s)).

(** Flushing one persistent object that is not scheduled for deletion: its
    row, found by the key the object was loaded under, is overwritten with
    the object's current attributes, primary key included.  The engine
    refuses a null key and a key that another row holds. *)
Definition flush_update (e : Z * ref) : Handler unit :=
  fun s =>
    let pk := fst e in
    let o := snd e in
    let rows := instances (database s) in
    if existsb (Nat.eqb o) (deleted s) then (Return tt, s)
    else
      match nth_error (heap s) o with
      | None => (Raise Unhandled, s)
      | Some obj =>
          match Instance.id obj with
          | None => (Raise Unhandled, s)
          | Some k' =>
              if (k' =? pk) || negb (existsb (pk_is k') rows) then
                (Return tt,
                 set_identity_map
                   (map (fun e' => if Nat.eqb (snd e') o then (k', o) else e')
                        (identity_map s))
                   (set_instances
                      (sql_update pk (Instance.to_row k' obj) rows) s))
              else (Raise Unhandled, s)
          end
      end.

(** Flushing one pending object: [INSERT].  Without a key the engine
    assigns [next_rowid]; the object learns its key and becomes
    persistent. *)
Definition flush_insert (o : ref) : Handler unit :=
  fun s =>
    let rows := instances (database s) in
    match nth_error (heap s) o with
    | None => (Raise Unhandled, s)
    | Some obj =>
        let pk := match Instance.id obj with
                  | Some k => k
                  | None => next_rowid rows
                  end in
        if existsb (pk_is pk) rows then (Raise Unhandled, s)
        else
          (Return tt,
           set_identity_map (identity_map s ++ [(pk, o)])
             (set_heap (update o (Instance.set_id (Some pk) obj) (heap s))
                (set_instances (rows ++ [Instance.to_row pk obj]) s)))
    end.

(** Flushing one object scheduled for deletion: [DELETE] by its key; the
    session forgets the object. *)
Definition flush_delete (o : ref) : Handler unit :=
  fun s =>
    match identity_key o s with
    | None => (Raise Unhandled, s)
    | Some pk =>
        (Return tt,
         set_identity_map
           (filter (fun e => negb (Nat.eqb (snd e) o)) (identity_map s))
           (set_instances (sql_delete pk (instances (database s))) s))
    end.

(** A flush emits the updates, then the inserts, then the deletes. *)
Definition flush : Handler unit :=
  fun s =>
    (for_each flush_update (identity_map s) ;;
     for_each flush_insert (new s) ;;
     for_each flush_delete (deleted s)) s.

(** [db.commit()]: flush and commit; a failed flush rolls the transaction
    back, so the tables are as before.  That a commit also expires the
    loaded objects is left out: the handlers that return an object after a
    commit refresh it first, and the others return no object. *)
Definition db_commit : Handler unit :=
  fun s =>
    match flush s with
    | (Return _, s') => (Return tt, set_deleted [] (set_new [] s'))
    | (Raise e, _) => (Raise e, s)
    end.

(** [db.refresh(obj)]: reload every attribute of a persistent object from
    its row. *)
Definition db_refresh (o : ref) : Handler unit :=
  fun s =>
    match identity_key o s with
    | None => (Raise Unhandled, s)
    | Some pk =>
        match select_first pk (instances (database s)) with
        | None => (Raise Unhandled, s)
        | Some row =>
            (Return tt, set_heap (update o (Instance.of_row row) (heap s)) s)
        end
    end.

(** ** The router: [app/routes/instances_routes.py] *)

Definition is_None {A : Type} (x : option A) : bool :=
  match x with
  | None => true
  | Some _ => false
  end.

(** [create_instance(instance, db)]. *)
Definition create_instance (instance : InstanceCreate.t num) : Handler ref :=
  project <- query_Project_first (InstanceCreate.project_id instance) ;;
  item <- query_Item_first (InstanceCreate.item_id instance) ;;
  if is_None project then
    raise (HTTPException 404 "Project not found")
  else if is_None item then
    raise (HTTPException 404 "Item not found")
  else
    new_instance <- construct
      {| Instance.id := None;
         Instance.project_id := InstanceCreate.project_id instance;
         Instance.item_id := InstanceCreate.item_id instance;
         Instance.position_x := InstanceCreate.position_x instance;
         Instance.position_y := InstanceCreate.position_y instance;
         Instance.position_z := InstanceCreate.position_z instance;
         Instance.rotation_x := InstanceCreate.rotation_x instance;
         Instance.rotation_y := InstanceCreate.rotation_y instance;
         Instance.rotation_z := InstanceCreate.rotation_z instance;
         Instance.scale_x := InstanceCreate.scale_x instance;
         Instance.scale_y := InstanceCreate.scale_y instance;
         Instance.scale_z := InstanceCreate.scale_z instance |} ;;
    db_add new_instance ;;
    db_commit ;;
    db_refresh new_instance ;;
    ret new_instance.

(** [update_instance(instance_id, instance_update, db)]. *)
Definition update_instance (instance_id : Z)
  (instance_update : InstanceCreate.t num) : Handler ref :=
  existing_instance <- query_Instance_first instance_id ;;
  match existing_instance with
  | None => raise (HTTPException 404 "Instance not found")
  | Some existing_instance =>
      project <- query_Project_first
                   (InstanceCreate.project_id instance_update) ;;
      item <- query_Item_first (InstanceCreate.item_id instance_update) ;;
      if is_None project then
        raise (HTTPException 404 "Project not found")
      else if is_None item then
        raise (HTTPException 404 "Item not found")
      else
        setattr existing_instance
          (Instance.set_project_id
             (InstanceCreate.project_id instance_update)) ;;
        setattr existing_instance
          (Instance.set_item_id (InstanceCreate.item_id instance_update)) ;;
        setattr existing_instance
          (Instance.set_position_x
             (InstanceCreate.position_x instance_update)) ;;
        setattr existing_instance
          (Instance.set_position_y
             (InstanceCreate.position_y instance_update)) ;;
        setattr existing_instance
          (Instance.set_position_z
             (InstanceCreate.position_z instance_update)) ;;
        setattr existing_instance
          (Instance.set_rotation_x
             (InstanceCreate.rotation_x instance_update)) ;;
        setattr existing_instance
          (Instance.set_rotation_y
             (InstanceCreate.rotation_y instance_update)) ;;
        setattr existing_instance
          (Instance.set_rotation_z
             (InstanceCreate.rotation_z instance_update)) ;;
        setattr existing_instance
          (Instance.set_scale_x (InstanceCreate.scale_x instance_update)) ;;
        setattr existing_instance
          (Instance.set_scale_y (InstanceCreate.scale_y instance_update)) ;;
        setattr existing_instance
          (Instance.set_scale_z (InstanceCreate.scale_z instance_update)) ;;
        db_commit ;;
        db_refresh existing_instance ;;
        ret existing_instance
  end.

(** [get_instance(instance_id, db)]. *)
Definition get_instance (instance_id : Z) : Handler ref :=
  instance <- query_Instance_first instance_id ;;
  match instance with
  | None => raise (HTTPException 404 "Instance not found")
  | Some instance => ret instance
  end.

(** [list_instances(db)]. *)
Definition list_instances : Handler (list ref) :=
  instances <- query_Instance_all ;;
  ret instances.

(** [delete_instance(instance_id, db)]; the value returned is the
    dictionary [{"message": "Instance deleted successfully"}]. *)
Definition delete_instance (instance_id : Z)
  : Handler (list (string * string)) :=
  instance <- query_Instance_first instance_id ;;
  match instance with
  | None => raise (HTTPException 404 "Instance not found")
  | Some instance =>
      db_delete instance ;;
      db_commit ;;
      ret [("message"%string, "Instance deleted successfully"%string)]
  end.

(** ** Routes: what the decorators declare *)

(** [response_model=InstanceRead]: the returned object, read at the end of
    the request. *)
Definition response_InstanceRead (o : ref) (s : Session)
  : option (InstanceRead.t num) :=
  match nth_error (heap s) o with
  | Some obj => InstanceRead.from_orm obj
  | None => None
  end.

(** [response_model=List[InstanceRead]]. *)
Fixpoint response_List_InstanceRead (os : list ref) (s : Session)
  : option (list (InstanceRead.t num)) :=
  match os with
  | [] => Some []
  | o :: os' =>
      match response_InstanceRead o s, response_List_InstanceRead os' s with
      | Some r, Some rs => Some (r :: rs)
      | _, _ => None
      end
  end.

(** No response model: the returned value is the content. *)
Definition response_plain {A : Type} (a : A) (s : Session) : option A :=
  Some a.

(** One request: [Depends(get_db)] opens a session on the database, the
    handler runs in it, the outcome becomes the response, and the database
    is left as the last commit made it.  The response pairs the status
    code the decorator declares with the value the handler returned, read
    through the response model; which bytes the web framework then puts on
    the wire for a given status code is outside the router. *)
Definition route {A B : Type} (status_code : Z)
  (response_model : B -> Session -> option A) (endpoint : Handler B)
  (db : Database) : Response A * Database :=
  match endpoint (SessionLocal db) with
  | (Return b, s) =>
      (match response_model b s with
       | Some a => JSONResponse status_code a
       | None => InternalServerError
       end, database s)
  | (Raise (HTTPException c d), s) => (ErrorResponse c d, database s)
  | (Raise Unhandled, s) => (InternalServerError, database s)
  end.

(** [@router.post("/instances/", response_model=InstanceRead)]. *)
Definition POST_instances (instance : InstanceCreate.t num) :=
  route 200 response_InstanceRead (create_instance instance).

(** [@router.put("/instances/{instance_id}", response_model=InstanceRead)]. *)
Definition PUT_instances (instance_id : Z)
  (instance_update : InstanceCreate.t num) :=
  route 200 response_InstanceRead (update_instance instance_id instance_update).

(** [@router.get("/instances/{instance_id}", response_model=InstanceRead)]. *)
Definition GET_instances_id (instance_id : Z) :=
  route 200 response_InstanceRead (get_instance instance_id).

(** [@router.get("/instances/", response_model=List[InstanceRead])]. *)
Definition GET_instances :=
  route 200 response_List_InstanceRead list_instances.

(** [@router.delete("/instances/{instance_id}", status_code=204)]. *)
Definition DELETE_instances (instance_id : Z) :=
  route 204 response_plain (delete_instance instance_id).

(** ** Vocabulary of the properties *)

(** The primary keys present in each table. *)
Definition project_keys (db : Database) : list Z :=
  map Project.id (projects db).

Definition item_keys (db : Database) : list Z :=
  map Item.id (items db).

Definition instance_keys (db : Database) : list Z :=
  map InstanceRow.id (instances db).

(** The row that holds exactly the values of a request, under key [k]. *)
Definition row_of_request (k : Z) (x : InstanceCreate.t num)
  : InstanceRow.t num :=
  {| InstanceRow.id := k;
     InstanceRow.project_id := InstanceCreate.project_id x;
     InstanceRow.item_id := InstanceCreate.item_id x;
     InstanceRow.position_x := InstanceCreate.position_x x;
     InstanceRow.position_y := InstanceCreate.position_y x;
     InstanceRow.position_z := InstanceCreate.position_z x;
     InstanceRow.rotation_x := InstanceCreate.rotation_x x;
     InstanceRow.rotation_y := InstanceCreate.rotation_y x;
     InstanceRow.rotation_z := InstanceCreate.rotation_z x;
     InstanceRow.scale_x := InstanceCreate.scale_x x;
     InstanceRow.scale_y := InstanceCreate.scale_y x;
     InstanceRow.scale_z := InstanceCreate.scale_z x |}.

(** A row as a response body. *)
Definition read_of_row (r : InstanceRow.t num) : InstanceRead.t num :=
  {| InstanceRead.id := InstanceRow.id r;
     InstanceRead.project_id := InstanceRow.project_id r;
     InstanceRead.item_id := InstanceRow.item_id r;
     InstanceRead.position_x := InstanceRow.position_x r;
     InstanceRead.position_y := InstanceRow.position_y r;
     InstanceRead.position_z := InstanceRow.position_z r;
     InstanceRead.rotation_x := InstanceRow.rotation_x r;
     InstanceRead.rotation_y := InstanceRow.rotation_y r;
     InstanceRead.rotation_z := InstanceRow.rotation_z r;
     InstanceRead.scale_x := InstanceRow.scale_x r;
     InstanceRead.scale_y := InstanceRow.scale_y r;
     InstanceRead.scale_z := InstanceRow.scale_z r |}.

(** The response body that holds exactly the values of a request. *)
Definition read_of_request (k : Z) (x : InstanceCreate.t num)
  : InstanceRead.t num :=
  read_of_row (row_of_request k x).

(** The database with another [instances] table. *)
Definition with_instances (rows : list (InstanceRow.t num)) (db : Database)
  : Database :=
  mkDatabase (projects db) (items db) rows.

(** The confirmation body of a delete. *)
Definition deleted_message : list (string * string) :=
  [("message"%string, "Instance deleted successfully"%string)].

(** The requests of the router, and the database each leaves behind. *)
Inductive Request : Type :=
| Create (instance : InstanceCreate.t num)
| Update (instance_id : Z) (instance_update : InstanceCreate.t num)
| Get (instance_id : Z)
| ListAll
| Delete (instance_id : Z).

Definition serve (req : Request) (db : Database) : Database :=
  match req with
  | Create x => snd (POST_instances x db)
  | Update k u => snd (PUT_instances k u db)
  | Get k => snd (GET_instances_id k db)
  | ListAll => snd (GET_instances db)
  | Delete k => snd (DELETE_instances k db)
  end.

(** A run of create requests, one after the other: the responses and the
    final database. *)
Fixpoint create_all (xs : list (InstanceCreate.t num)) (db : Database)
  : list (Response (InstanceRead.t num)) * Database :=
  match xs with
  | [] => ([], db)
  | x :: xs' =>
      let (r, db1) := POST_instances x db in
      let (rs, db2) := create_all xs' db1 in
      (r :: rs, db2)
  end.

(** A create request whose two foreign keys resolve. *)
Definition valid_request (db : Database) (x : InstanceCreate.t num) : Prop :=
  In (InstanceCreate.project_id x) (project_keys db) /\
  In (InstanceCreate.item_id x) (item_keys db).

(** Every object the session holds is on the heap and has a key. *)
Definition loaded_ok (s : Session) : Prop :=
  forall e, In e (identity_map s) ->
    exists obj k, nth_error (heap s) (snd e) = Some obj /\
                  Instance.id obj = Some k.

(** The three outcomes of a lookup by key: a row, no row, or the refusal
    of a key that cannot be bound. *)
Inductive Lookup (A : Type) : Type :=
| Found (x : A)
| Missing
| Refused.

Definition lookup {A : Type} (k : Z) (found : option A) : Lookup A :=
  match found with
  | Some x => Found _ x
  | None => if fits_int64 k then Missing _ else Refused _
  end.

(** The status code of a response; a server error is a 500. *)
Definition status_of {A : Type} (r : Response A) : Z :=
  match r with
  | JSONResponse c _ => c
  | ErrorResponse c _ => c
  | InternalServerError => 500
  end.

(** The detail of an error response, if the response is one. *)
Definition detail_of {A : Type} (r : Response A) : option string :=
  match r with
  | ErrorResponse _ d => Some d
  | _ => None
  end.

(** The status code and error detail with which a request is answered. *)
Definition answered (req : Request) (db : Database) : Z * option string :=
  match req with
  | Create x =>
      let r := fst (POST_instances x db) in (status_of r, detail_of r)
  | Update k u =>
      let r := fst (PUT_instances k u db) in (status_of r, detail_of r)
  | Get k =>
      let r := fst (GET_instances_id k db) in (status_of r, detail_of r)
  | ListAll =>
      let r := fst (GET_instances db) in (status_of r, detail_of r)
  | Delete k =>
      let r := fst (DELETE_instances k db) in (status_of r, detail_of r)
  end.

(** The answers a route declares, by status code and error detail. *)
Definition declared (req : Request) : list (Z * option string) :=
  match req with
  | Create _ =>
      [(200, None); (404, Some "Project not found"%string);
       (404, Some "Item not found"%string)]
  | Update _ _ =>
      [(200, None); (404, Some "Instance not found"%string);
       (404, Some "Project not found"%string);
       (404, Some "Item not found"%string)]
  | Get _ => [(200, None); (404, Some "Instance not found"%string)]
  | ListAll => [(200, None)]
  | Delete _ => [(204, None); (404, Some "Instance not found"%string)]
  end.

(** Whether every id that a request carries lies in the signed 64-bit
    range. *)
Definition ids_fit (req : Request) : bool :=
  match req with
  | Create x =>
      fits_int64 (InstanceCreate.project_id x) &&
      fits_int64 (InstanceCreate.item_id x)
  | Update k u =>
      fits_int64 k && fits_int64 (InstanceCreate.project_id u) &&
      fits_int64 (InstanceCreate.item_id u)
  | Get k => fits_int64 k
  | ListAll => true
  | Delete k => fits_int64 k
  end.

(** A run of requests, one after the other: the final database. *)
Fixpoint serve_all (reqs : list Request) (db : Database) : Database :=
  match reqs with
  | [] => db
  | req :: reqs' => serve_all reqs' (serve req db)
  end.

(** Every instance row names a project and an item that exist. *)
Definition references_resolve (db : Database) : Prop :=
  forall r, In r (instances db) ->
    In (InstanceRow.project_id r) (project_keys db) /\
    In (InstanceRow.item_id r) (item_keys db).

(** The session a request leaves behind when its handler returns or
    raises, just before it is closed. *)
Definition session_after (req : Request) (db : Database) : Session :=
  match req with
  | Create x => snd (create_instance x (SessionLocal db))
  | Update k u => snd (update_instance k u (SessionLocal db))
  | Get k => snd (get_instance k (SessionLocal db))
  | ListAll => snd (list_instances (SessionLocal db))
  | Delete k => snd (delete_instance k (SessionLocal db))
  end.

(** Every persistent object carries the values of a stored row of its
    key. *)
Definition in_sync (s : Session) : Prop :=
  forall k o, In (k, o) (identity_map s) ->
    exists r, In r (instances (database s)) /\ InstanceRow.id r = k /\
              nth_error (heap s) o = Some (Instance.of_row r).

(** A session that holds no uncommitted change: nothing is scheduled for
    insertion or deletion and no persistent object differs from its
    row. *)
Definition nothing_uncommitted (s : Session) : Prop :=
  new s = [] /\ deleted s = [] /\ in_sync s.

End InstancesRouter.

Arguments Database : clear implicits.
Arguments Session : clear implicits.
Arguments Request : clear implicits.
Arguments Handler : clear implicits.

(** ** A small database to run the router on *)

(** One project, one item, and two instances under keys 1 and 2. *)
Definition sample_db : Database Z :=
  mkDatabase
    [Project.mk 1]
    [Item.mk 1 (Some "chair"%string) None None]
    [InstanceRow.mk 1 1 1 0 0 0 0 0 0 1 1 1;
     InstanceRow.mk 2 1 1 4 5 6 0 0 90 2 2 2].

(** The same project and item, and no instance yet. *)
Definition empty_db : Database Z :=
  mkDatabase [Project.mk 1] [Item.mk 1 (Some "chair"%string) None None] [].

(** A request whose foreign keys both resolve in the two databases. *)
Definition sample_request : InstanceCreate.t Z :=
  InstanceCreate.mk 1 1 10 20 30 0 45 0 3 3 3.


(** A request whose project exists and whose item does not. *)
Definition request_without_item : InstanceCreate.t Z :=
  InstanceCreate.mk 1 9 10 20 30 0 45 0 3 3 3.


Section Properties.

Context {num : Type}.

(** ** Lookup by key *)

Lemma find_key_none {A : Type} (f : A -> Z) (k : Z) (l : list A) :
  ~ In k (map f l) -> find (fun x => f x =? k) l = None.
Proof.
  induction l as [|a l IH]; intro H; [reflexivity|].
  cbn in *. destruct (Z.eqb_spec (f a) k) as [E|E].
  - exfalso. apply H. now left.
  - apply IH. intro HI. apply H. now right.
Qed.

Lemma find_key_some {A : Type} (f : A -> Z) (k : Z) (l : list A) :
  In k (map f l) ->
  exists x, find (fun x => f x =? k) l = Some x /\ f x = k /\ In x l.
Proof.
  induction l as [|a l IH]; intro H; [destruct H|].
  cbn in *. destruct (Z.eqb_spec (f a) k) as [E|E].
  - exists a. auto.
  - destruct H as [H|H]; [contradiction|].
    destruct (IH H) as (x & Hx & Hk & Hin). exists x. auto.
Qed.

Lemma find_key_inv {A : Type} (f : A -> Z) (k : Z) (l : list A) :
  match find (fun x => f x =? k) l with
  | Some x => f x = k /\ In k (map f l)
  | None => ~ In k (map f l)
  end.
Proof.
  induction l as [|a l IH]; cbn; [tauto|].
  destruct (Z.eqb_spec (f a) k) as [E|E]; [auto|].
  destruct (find (fun x => f x =? k) l); intuition.
Qed.

Lemma select_first_none (k : Z) (rows : list (InstanceRow.t num)) :
  ~ In k (map InstanceRow.id rows) -> select_first k rows = None.
Proof. apply (find_key_none InstanceRow.id). Qed.

Lemma select_first_some (k : Z) (rows : list (InstanceRow.t num)) :
  In k (map InstanceRow.id rows) ->
  exists r, select_first k rows = Some r /\ InstanceRow.id r = k /\ In r rows.
Proof. apply (find_key_some InstanceRow.id). Qed.

(** ** Lookup by key, with the refusal *)

Lemma first_or_refuse_lookup {A : Type} (k : Z) (found : option A) :
  first_or_refuse k found =
  match lookup k found with
  | Found _ x => Return (Some x)
  | Missing _ => Return None
  | Refused _ => Raise Unhandled
  end.
Proof.
  unfold first_or_refuse, lookup.
  destruct found; [reflexivity|]. destruct (fits_int64 k); reflexivity.
Qed.

(** On a table whose keys can all be bound, the lookup refuses exactly
    the keys that cannot. *)
Lemma first_or_refuse_fitting {A : Type} (f : A -> Z) (k : Z) (l : list A) :
  Forall (fun x => fits_int64 (f x) = true) l ->
  first_or_refuse k (find (fun x => f x =? k) l) =
  if fits_int64 k then Return (find (fun x => f x =? k) l)
  else Raise Unhandled.
Proof.
  intro Hfit. unfold first_or_refuse.
  destruct (find _ l) as [x|] eqn:E; [|reflexivity].
  apply find_some in E. destruct E as [Hin Hk]. apply Z.eqb_eq in Hk.
  rewrite Forall_forall in Hfit. rewrite <- Hk, (Hfit x Hin). reflexivity.
Qed.

Lemma lookup_found {A : Type} (f : A -> Z) (k : Z) (l : list A) :
  In k (map f l) ->
  exists x, lookup k (find (fun x => f x =? k) l) = Found _ x /\
            f x = k /\ In x l.
Proof.
  intro H. destruct (find_key_some f k l H) as (x & -> & Hk & Hin).
  exists x. auto.
Qed.

Lemma lookup_missing {A : Type} (f : A -> Z) (k : Z) (l : list A) :
  ~ In k (map f l) -> fits_int64 k = true ->
  lookup k (find (fun x => f x =? k) l) = Missing _.
Proof.
  intros H Hfit. rewrite (find_key_none f k l H). unfold lookup.
  now rewrite Hfit.
Qed.

Lemma lookup_refused {A : Type} (f : A -> Z) (k : Z) (l : list A) :
  ~ In k (map f l) -> fits_int64 k = false ->
  lookup k (find (fun x => f x =? k) l) = Refused _.
Proof.
  intros H Hfit. rewrite (find_key_none f k l H). unfold lookup.
  now rewrite Hfit.
Qed.

Lemma lookup_inv {A : Type} (f : A -> Z) (k : Z) (l : list A) :
  match lookup k (find (fun x => f x =? k) l) with
  | Found _ x =>
      find (fun x => f x =? k) l = Some x /\ f x = k /\ In x l /\
      In k (map f l)
  | Missing _ =>
      find (fun x => f x =? k) l = None /\ ~ In k (map f l) /\
      fits_int64 k = true
  | Refused _ =>
      find (fun x => f x =? k) l = None /\ ~ In k (map f l) /\
      fits_int64 k = false
  end.
Proof.
  pose proof (find_key_inv f k l) as H. unfold lookup.
  destruct (find _ l) as [x|] eqn:E.
  - apply find_some in E. tauto.
  - destruct (fits_int64 k); auto.
Qed.

Lemma lookup_row_found (k : Z) (rows : list (InstanceRow.t num)) :
  In k (map InstanceRow.id rows) ->
  exists r, lookup k (select_first k rows) = Found _ r /\
            select_first k rows = Some r /\
            InstanceRow.id r = k /\ In r rows.
Proof.
  intro H. destruct (select_first_some k rows H) as (r & E & Hk & Hin).
  exists r. rewrite E. auto.
Qed.

Lemma lookup_row_inv (k : Z) (rows : list (InstanceRow.t num)) :
  match lookup k (select_first k rows) with
  | Found _ r =>
      select_first k rows = Some r /\ InstanceRow.id r = k /\
      In r rows /\ In k (map InstanceRow.id rows)
  | Missing _ =>
      select_first k rows = None /\ ~ In k (map InstanceRow.id rows) /\
      fits_int64 k = true
  | Refused _ =>
      select_first k rows = None /\ ~ In k (map InstanceRow.id rows) /\
      fits_int64 k = false
  end.
Proof. apply (lookup_inv InstanceRow.id). Qed.

(** ** Key allocation *)

Lemma max_rowid_bound (rows : list (InstanceRow.t num)) (r : InstanceRow.t num) :
  In r rows -> exists m, max_rowid rows = Some m /\ InstanceRow.id r <= m.
Proof.
  induction rows as [|a rows IH]; intro H; [destruct H|].
  cbn. destruct H as [->|H].
  - destruct (max_rowid rows); eexists; split; try reflexivity; lia.
  - destruct (IH H) as (m & -> & Hm). eexists; split; [reflexivity|lia].
Qed.

Lemma next_rowid_above (rows : list (InstanceRow.t num)) (r : InstanceRow.t num) :
  In r rows -> InstanceRow.id r < next_rowid rows.
Proof.
  intro H. destruct (max_rowid_bound rows r H) as (m & Hm & Hle).
  unfold next_rowid. rewrite Hm. lia.
Qed.

Lemma next_rowid_fresh (rows : list (InstanceRow.t num)) :
  ~ In (next_rowid rows) (map InstanceRow.id rows).
Proof.
  intro H. apply in_map_iff in H. destruct H as (r & Hr & Hin).
  apply next_rowid_above in Hin. lia.
Qed.

Lemma existsb_pk_false (k : Z) (rows : list (InstanceRow.t num)) :
  ~ In k (map InstanceRow.id rows) -> existsb (pk_is k) rows = false.
Proof.
  induction rows as [|a rows IH]; intro H; [reflexivity|].
  cbn in *. unfold pk_is at 1. destruct (Z.eqb_spec (InstanceRow.id a) k) as [E|E].
  - exfalso. auto.
  - apply IH. auto.
Qed.

Lemma select_first_app_fresh (k : Z) (rows : list (InstanceRow.t num))
  (r : InstanceRow.t num) :
  ~ In k (map InstanceRow.id rows) -> InstanceRow.id r = k ->
  select_first k (rows ++ [r]) = Some r.
Proof.
  intros Hk Hr. unfold select_first.
  induction rows as [|a rows IH]; cbn in *.
  - unfold pk_is. rewrite Hr, Z.eqb_refl. reflexivity.
  - unfold pk_is at 1. destruct (Z.eqb_spec (InstanceRow.id a) k) as [E|E].
    + exfalso. auto.
    + apply IH. auto.
Qed.

(** ** Running the handlers in a fresh session *)

#[local] Arguments select_first : simpl never.
#[local] Arguments sql_update : simpl never.
#[local] Arguments sql_delete : simpl never.
#[local] Arguments next_rowid : simpl never.

(** Evaluation of a handler on an explicit session: the session
    primitives and the attribute assignments are unfolded with sharing,
    then the list functions are reduced where they meet explicit lists.
    Lookups in the tables stay folded. *)
Ltac run :=
  repeat
    (lazy [andThen ret raise for_each
           query_Project_first query_Item_first query_Instance_first
           load construct setattr persistent pending db_add db_delete
           identity_key flush_update flush_insert flush_delete flush
           db_commit db_refresh is_None
           set_instances set_heap set_identity_map set_new set_deleted
           SessionLocal database heap identity_map new deleted
           Instance.set_id Instance.set_project_id Instance.set_item_id
           Instance.set_position_x Instance.set_position_y
           Instance.set_position_z Instance.set_rotation_x
           Instance.set_rotation_y Instance.set_rotation_z
           Instance.set_scale_x Instance.set_scale_y Instance.set_scale_z
           Instance.id Instance.project_id Instance.item_id
           Instance.position_x Instance.position_y Instance.position_z
           Instance.rotation_x Instance.rotation_y Instance.rotation_z
           Instance.scale_x Instance.scale_y Instance.scale_z
           Instance.of_row Instance.to_row
           nth_error update app List.length option_map];
     cbn [find existsb map filter orb negb fst snd Nat.eqb
          projects items instances]).

(** Case analysis on every lookup left in the goal. *)
Ltac lookups :=
  repeat match goal with
         | |- context [lookup ?k ?f] => destruct (lookup k f)
         end.

Lemma create_instance_run (instance : InstanceCreate.t num) (db : Database num) :
  create_instance instance (SessionLocal db) =
  match lookup (InstanceCreate.project_id instance)
          (find (fun p => Project.id p =? InstanceCreate.project_id instance)
                (projects db)),
        lookup (InstanceCreate.item_id instance)
          (find (fun i => Item.id i =? InstanceCreate.item_id instance)
                (items db)) with
  | Refused _, _ => (Raise Unhandled, SessionLocal db)
  | _, Refused _ => (Raise Unhandled, SessionLocal db)
  | Missing _, _ =>
      (Raise (HTTPException 404 "Project not found"), SessionLocal db)
  | Found _ _, Missing _ =>
      (Raise (HTTPException 404 "Item not found"), SessionLocal db)
  | Found _ _, Found _ _ =>
      let row := row_of_request (next_rowid (instances db)) instance in
      (Return O,
       mkSession (with_instances (instances db ++ [row]) db)
                 [Instance.of_row row] [(InstanceRow.id row, O)] [] [])
  end.
Proof.
  unfold create_instance. run. rewrite !first_or_refuse_lookup.
  lookups; try reflexivity.
  run.
  rewrite (existsb_pk_false _ _ (next_rowid_fresh (instances db))).
  run.
  rewrite (select_first_app_fresh (next_rowid (instances db))).
  - reflexivity.
  - apply next_rowid_fresh.
  - reflexivity.
Qed.

Lemma select_first_key (k : Z) (rows : list (InstanceRow.t num))
  (r : InstanceRow.t num) :
  select_first k rows = Some r -> InstanceRow.id r = k /\ In r rows.
Proof.
  unfold select_first. intro H. split.
  - apply find_some in H. destruct H as [_ H]. now apply Z.eqb_eq in H.
  - apply find_some in H. tauto.
Qed.

Lemma select_first_update (k : Z) (rows : list (InstanceRow.t num))
  (r0 r' : InstanceRow.t num) :
  select_first k rows = Some r0 -> InstanceRow.id r' = k ->
  select_first k (sql_update k r' rows) = Some r'.
Proof.
  unfold select_first, sql_update. intros H Hr'.
  induction rows as [|a rows IH]; [discriminate|].
  cbn in *. destruct (pk_is k a) eqn:E.
  - unfold pk_is. rewrite Hr', Z.eqb_refl. reflexivity.
  - rewrite E. auto.
Qed.

Lemma select_first_delete (k : Z) (rows : list (InstanceRow.t num)) :
  select_first k (sql_delete k rows) = None.
Proof.
  unfold select_first, sql_delete.
  induction rows as [|a rows IH]; [reflexivity|].
  cbn. destruct (pk_is k a) eqn:E; cbn; [assumption|].
  rewrite E. assumption.
Qed.

Lemma update_instance_run (instance_id : Z)
  (instance_update : InstanceCreate.t num) (db : Database num) :
  update_instance instance_id instance_update (SessionLocal db) =
  match lookup instance_id (select_first instance_id (instances db)) with
  | Refused _ => (Raise Unhandled, SessionLocal db)
  | Missing _ =>
      (Raise (HTTPException 404 "Instance not found"), SessionLocal db)
  | Found _ r0 =>
      let loaded :=
        mkSession db [Instance.of_row r0] [(instance_id, O)] [] [] in
      match lookup (InstanceCreate.project_id instance_update)
              (find (fun p => Project.id p =?
                               InstanceCreate.project_id instance_update)
                    (projects db)),
            lookup (InstanceCreate.item_id instance_update)
              (find (fun i => Item.id i =?
                               InstanceCreate.item_id instance_update)
                    (items db)) with
      | Refused _, _ => (Raise Unhandled, loaded)
      | _, Refused _ => (Raise Unhandled, loaded)
      | Missing _, _ =>
          (Raise (HTTPException 404 "Project not found"), loaded)
      | Found _ _, Missing _ =>
          (Raise (HTTPException 404 "Item not found"), loaded)
      | Found _ _, Found _ _ =>
          let row := row_of_request instance_id instance_update in
          (Return O,
           mkSession
             (with_instances (sql_update instance_id row (instances db)) db)
             [Instance.of_row row] [(instance_id, O)] [] [])
      end
  end.
Proof.
  unfold update_instance. run. rewrite !first_or_refuse_lookup.
  pose proof (lookup_row_inv instance_id (instances db)) as H0.
  destruct (lookup instance_id (select_first instance_id (instances db)))
    as [r0| |]; [|reflexivity|reflexivity].
  destruct H0 as (E0 & Hk & _).
  run. rewrite Hk, !first_or_refuse_lookup.
  lookups; try reflexivity.
  run. rewrite Z.eqb_refl. run.
  rewrite (select_first_update instance_id (instances db) r0); auto.
Qed.

Lemma get_instance_run (instance_id : Z) (db : Database num) :
  get_instance instance_id (SessionLocal db) =
  match lookup instance_id (select_first instance_id (instances db)) with
  | Refused _ => (Raise Unhandled, SessionLocal db)
  | Missing _ =>
      (Raise (HTTPException 404 "Instance not found"), SessionLocal db)
  | Found _ r0 =>
      (Return O, mkSession db [Instance.of_row r0] [(instance_id, O)] [] [])
  end.
Proof.
  unfold get_instance. run. rewrite !first_or_refuse_lookup.
  pose proof (lookup_row_inv instance_id (instances db)) as H0.
  destruct (lookup instance_id (select_first instance_id (instances db)))
    as [r0| |]; [|reflexivity|reflexivity].
  destruct H0 as (E0 & Hk & _).
  run. rewrite Hk. reflexivity.
Qed.

Lemma delete_instance_run (instance_id : Z) (db : Database num) :
  delete_instance instance_id (SessionLocal db) =
  match lookup instance_id (select_first instance_id (instances db)) with
  | Refused _ => (Raise Unhandled, SessionLocal db)
  | Missing _ =>
      (Raise (HTTPException 404 "Instance not found"), SessionLocal db)
  | Found _ r0 =>
      (Return deleted_message,
       mkSession
         (with_instances (sql_delete instance_id (instances db)) db)
         [Instance.of_row r0] [] [] [])
  end.
Proof.
  unfold delete_instance. run. rewrite !first_or_refuse_lookup.
  pose proof (lookup_row_inv instance_id (instances db)) as H0.
  destruct (lookup instance_id (select_first instance_id (instances db)))
    as [r0| |]; [|reflexivity|reflexivity].
  destruct H0 as (E0 & Hk & _).
  run. rewrite Hk. reflexivity.
Qed.

(** ** Loading the whole table *)

Lemma load_database (row : InstanceRow.t num) (s : Session num) :
  database (snd (load row s)) = database s.
Proof.
  unfold load. destruct (find _ (identity_map s)) as [[k o]|]; reflexivity.
Qed.

Lemma load_all_database (rows : list (InstanceRow.t num)) (s : Session num) :
  database (snd (load_all rows s)) = database s.
Proof.
  revert s. induction rows as [|row rows IH]; intro s; [reflexivity|].
  cbn. unfold andThen.
  pose proof (load_database row s) as H1.
  assert (exists o s1, load row s = (Return o, s1)) as (o & s1 & E1).
  { unfold load. destruct (find _ (identity_map s)) as [[k o]|]; eauto. }
  rewrite E1 in *. cbn in H1.
  pose proof (IH s1) as H2.
  destruct (load_all rows s1) as [[os|e] s2]; cbn in *; congruence.
Qed.

Lemma response_InstanceRead_grows (o : ref) (s s' : Session num)
  (ext : list (Instance.t num)) (r : InstanceRead.t num) :
  heap s' = heap s ++ ext ->
  response_InstanceRead o s = Some r -> response_InstanceRead o s' = Some r.
Proof.
  unfold response_InstanceRead. intros Hh H. rewrite Hh.
  destruct (nth_error (heap s) o) as [obj|] eqn:E; [|discriminate].
  rewrite nth_error_app1; [now rewrite E|].
  apply nth_error_Some. congruence.
Qed.

Lemma load_ok (row : InstanceRow.t num) (s : Session num) :
  loaded_ok s ->
  exists o s', load row s = (Return o, s') /\ loaded_ok s' /\
    (exists ext, heap s' = heap s ++ ext) /\
    (exists r, response_InstanceRead o s' = Some r).
Proof.
  intro Hok. unfold load.
  destruct (find _ (identity_map s)) as [[k o]|] eqn:E.
  - exists o, s. split; [reflexivity|]. split; [assumption|].
    split; [exists []; now rewrite app_nil_r|].
    apply find_some in E. destruct E as [Hin _].
    destruct (Hok _ Hin) as (obj & k' & Hn & Hid). cbn in Hn.
    unfold response_InstanceRead, InstanceRead.from_orm.
    rewrite Hn, Hid. eauto.
  - eexists _, _. split; [reflexivity|]. cbn. split; [|split].
    + intros e He. cbn in *. apply in_app_or in He. destruct He as [He|He].
      * destruct (Hok _ He) as (obj & k' & Hn & Hid). exists obj, k'.
        split; [|assumption]. rewrite nth_error_app1; [assumption|].
        apply nth_error_Some. congruence.
      * destruct He as [<-|[]]. cbn.
        exists (Instance.of_row row), (InstanceRow.id row).
        split; [|reflexivity].
        rewrite nth_error_app2, Nat.sub_diag; [reflexivity|apply Nat.le_refl].
    + eauto.
    + unfold response_InstanceRead. cbn.
      rewrite nth_error_app2, Nat.sub_diag; [|apply Nat.le_refl].
      cbn. eauto.
Qed.

Lemma load_all_ok (rows : list (InstanceRow.t num)) (s : Session num) :
  loaded_ok s ->
  exists os s', load_all rows s = (Return os, s') /\ loaded_ok s' /\
    (exists ext, heap s' = heap s ++ ext) /\
    (exists rs, response_List_InstanceRead os s' = Some rs /\
                List.length rs = List.length rows).
Proof.
  revert s. induction rows as [|row rows IH]; intros s Hok.
  - exists [], s. cbn. split; [reflexivity|]. split; [assumption|].
    split; [exists []; now rewrite app_nil_r|]. exists []. auto.
  - destruct (load_ok row s Hok) as (o & s1 & E1 & Hok1 & [ext1 Hh1] & [r Hr]).
    destruct (IH s1 Hok1) as (os & s2 & E2 & Hok2 & [ext2 Hh2] & rs & Hrs & Hlen).
    exists (o :: os), s2. cbn. unfold andThen. rewrite E1, E2. cbn.
    split; [reflexivity|]. split; [assumption|]. split.
    + exists (ext1 ++ ext2). now rewrite Hh2, Hh1, app_assoc.
    + exists (r :: rs).
      rewrite (response_InstanceRead_grows o s1 s2 ext2 r Hh2 Hr), Hrs.
      cbn. auto.
Qed.

Lemma load_all_nodup (rows : list (InstanceRow.t num)) (s : Session num) :
  NoDup (map InstanceRow.id rows) ->
  (forall k, In k (map InstanceRow.id rows) ->
             ~ In k (map fst (identity_map s))) ->
  load_all rows s =
  (Return (seq (List.length (heap s)) (List.length rows)),
   mkSession (database s) (heap s ++ map Instance.of_row rows)
     (identity_map s ++
      combine (map InstanceRow.id rows)
              (seq (List.length (heap s)) (List.length rows)))
     (new s) (deleted s)).
Proof.
  revert s. induction rows as [|row rows IH]; intros s Hnd Hfresh.
  - cbn. unfold ret. rewrite !app_nil_r. now destruct s.
  - cbn [load_all]. unfold andThen at 1. unfold load at 1.
    rewrite (find_key_none fst); [|apply Hfresh; now left].
    inversion Hnd as [|k ks Hnotin Hnd']; subst.
    unfold andThen. rewrite IH; [| assumption |].
    + cbn. rewrite length_app. cbn. rewrite Nat.add_1_r.
      rewrite <- !app_assoc. reflexivity.
    + intros k Hk. cbn. rewrite map_app. cbn. intro HI.
      apply in_app_or in HI. destruct HI as [HI|[HI|[]]].
      * apply (Hfresh k); [now right|assumption].
      * subst. contradiction.
Qed.

Lemma response_List_loaded (rows : list (InstanceRow.t num)) (s : Session num)
  (h : list (Instance.t num)) :
  heap s = h ++ map Instance.of_row rows ->
  response_List_InstanceRead (seq (List.length h) (List.length rows)) s =
  Some (map read_of_row rows).
Proof.
  revert h. induction rows as [|row rows IH]; intros h Hh; [reflexivity|].
  cbn [List.length seq response_List_InstanceRead map].
  unfold response_InstanceRead at 1. rewrite Hh.
  rewrite nth_error_app2, Nat.sub_diag; [|apply Nat.le_refl].
  cbn [nth_error map]. unfold InstanceRead.from_orm. cbn [Instance.id Instance.of_row].
  specialize (IH (h ++ [Instance.of_row row])).
  rewrite length_app, Nat.add_1_r in IH. cbn in IH.
  rewrite IH; [reflexivity|].
  rewrite Hh, <- app_assoc. reflexivity.
Qed.


(** ** The routes on a request *)

Lemma POST_instances_ok (instance : InstanceCreate.t num) (db : Database num) :
  valid_request db instance ->
  POST_instances instance db =
  (JSONResponse 200
     (read_of_request (next_rowid (instances db)) instance),
   with_instances
     (instances db ++
      [row_of_request (next_rowid (instances db)) instance]) db).
Proof.
  intros [Hp Hi]. unfold POST_instances, route.
  rewrite create_instance_run.
  destruct (find_key_some Project.id _ _ Hp) as (p & -> & _).
  destruct (find_key_some Item.id _ _ Hi) as (i & -> & _).
  reflexivity.
Qed.

Lemma GET_instances_id_found (instance_id : Z) (db : Database num)
  (r : InstanceRow.t num) :
  select_first instance_id (instances db) = Some r ->
  GET_instances_id instance_id db = (JSONResponse 200 (read_of_row r), db).
Proof.
  intro H. unfold GET_instances_id, route.
  rewrite get_instance_run, H. reflexivity.
Qed.

Lemma GET_instances_run (db : Database num) :
  exists rs, GET_instances db = (JSONResponse 200 rs, db) /\
             List.length rs = List.length (instances db).
Proof.
  unfold GET_instances, route, list_instances, query_Instance_all, andThen.
  assert (loaded_ok (SessionLocal db)) as Hok by (intros e []).
  destruct (load_all_ok (instances db) _ Hok)
    as (os & s' & E & _ & _ & rs & Hrs & Hlen).
  pose proof (load_all_database (instances db) (SessionLocal db)) as Hdb.
  cbn [database SessionLocal] in *. rewrite E in *. cbn in Hdb.
  unfold ret. rewrite Hrs, Hdb. eauto.
Qed.

Lemma GET_instances_nodup (db : Database num) :
  NoDup (instance_keys db) ->
  GET_instances db = (JSONResponse 200 (map read_of_row (instances db)), db).
Proof.
  intro Hnd.
  unfold GET_instances, route, list_instances, query_Instance_all, andThen.
  cbn [database SessionLocal].
  rewrite load_all_nodup; [|assumption|intros k _ []].
  unfold ret. cbn [heap SessionLocal List.length app].
  rewrite (response_List_loaded (instances db) _ []); reflexivity.
Qed.

Lemma sql_update_keys (k : Z) (r' : InstanceRow.t num)
  (rows : list (InstanceRow.t num)) :
  InstanceRow.id r' = k ->
  map InstanceRow.id (sql_update k r' rows) = map InstanceRow.id rows.
Proof.
  intro H. unfold sql_update. rewrite map_map. apply map_ext.
  intro r. unfold pk_is. destruct (Z.eqb_spec (InstanceRow.id r) k); congruence.
Qed.

Lemma NoDup_snoc {A : Type} (l : list A) (a : A) :
  NoDup l -> ~ In a l -> NoDup (l ++ [a]).
Proof.
  induction l as [|b l IH]; intros Hnd Hnotin; cbn.
  - constructor; [intros []|constructor].
  - inversion Hnd as [|? ? Hb Hl]; subst. constructor.
    + intro HI. apply in_app_or in HI. destruct HI as [HI|[HI|[]]].
      * contradiction.
      * subst. apply Hnotin. now left.
    + apply IH; [assumption|]. intro HI. apply Hnotin. now right.
Qed.

Lemma create_all_run (xs : list (InstanceCreate.t num)) (db : Database num) :
  Forall (valid_request db) xs ->
  NoDup (instance_keys db) ->
  exists rows,
    snd (create_all xs db) = with_instances (instances db ++ rows) db /\
    fst (create_all xs db) =
      map (fun r => JSONResponse 200 (read_of_row r)) rows /\
    List.length rows = List.length xs /\
    NoDup (instance_keys (snd (create_all xs db))).
Proof.
  revert db. induction xs as [|x xs IH]; intros db Hv Hnd.
  - exists []. cbn. rewrite app_nil_r. now destruct db.
  - inversion Hv as [|? ? Hx Hxs]; subst.
    cbn [create_all]. rewrite (POST_instances_ok x db Hx).
    set (row := row_of_request (next_rowid (instances db)) x).
    set (db1 := with_instances (instances db ++ [row]) db).
    destruct (IH db1) as (rows & Hs & Hf & Hlen & Hnd').
    + eapply Forall_impl; [|exact Hxs]. intros a Ha. exact Ha.
    + unfold instance_keys, db1. cbn. rewrite map_app. cbn.
      apply NoDup_snoc; [exact Hnd|apply next_rowid_fresh].
    + destruct (create_all xs db1) as [rs db2]. cbn [fst snd] in *.
      exists (row :: rows). subst db2 rs.
      unfold db1, with_instances in *. cbn [projects items instances] in *.
      rewrite <- app_assoc in *. cbn [app] in *.
      split; [reflexivity|]. split; [reflexivity|].
      split; [cbn [List.length]; now rewrite Hlen|exact Hnd'].
Qed.


(** ** The primary key constraint is kept *)

(** The keys left by a delete are the old keys without the deleted one. *)
Lemma sql_delete_keys (k : Z) (rows : list (InstanceRow.t num)) :
  map InstanceRow.id (sql_delete k rows) =
  filter (fun j => negb (j =? k)) (map InstanceRow.id rows).
Proof.
  unfold sql_delete, pk_is.
  induction rows as [|row rows IH]; [reflexivity|].
  cbn [filter map].
  destruct (InstanceRow.id row =? k); cbn [negb map]; now rewrite IH.
Qed.

(** Whatever the request, a table whose keys are pairwise distinct stays
    one. *)
Lemma serve_keeps_keys_distinct (req : Request num) (db : Database num) :
  NoDup (instance_keys db) -> NoDup (instance_keys (serve req db)).
Proof.
  intro Hnd. destruct req as [x|k u|k| |k]; cbn [serve].
  - unfold POST_instances, route. rewrite create_instance_run.
    lookups; cbn [snd database]; try exact Hnd.
    unfold instance_keys. cbn [instances with_instances].
    rewrite map_app. apply NoDup_snoc; [exact Hnd|apply next_rowid_fresh].
  - unfold PUT_instances, route. rewrite update_instance_run.
    lookups; cbn [snd database]; try exact Hnd.
    unfold instance_keys. cbn [instances with_instances].
    rewrite sql_update_keys; [exact Hnd|reflexivity].
  - unfold GET_instances_id, route. rewrite get_instance_run.
    lookups; exact Hnd.
  - destruct (GET_instances_run db) as (rs & -> & _). exact Hnd.
  - unfold DELETE_instances, route. rewrite delete_instance_run.
    lookups; cbn [snd database]; try exact Hnd.
    unfold instance_keys. cbn [instances with_instances].
    rewrite sql_delete_keys. apply NoDup_filter. exact Hnd.
Qed.

(** ** Properties of the router *)


(** C2. An update request whose instance, project and item all exist is
    answered 200 with a row made of the request's eleven values and the
    targeted key, and the table afterwards has that same row in place of
    the targeted one: nothing of the row's earlier values is kept, and
    every other row is as before. *)
Theorem update_instance_full_replace (instance_id : Z)
  (instance_update : InstanceCreate.t num) (db : Database num) :
  In instance_id (instance_keys db) ->
  In (InstanceCreate.project_id instance_update) (project_keys db) ->
  In (InstanceCreate.item_id instance_update) (item_keys db) ->
  PUT_instances instance_id instance_update db =
  (JSONResponse 200 (read_of_request instance_id instance_update),
   with_instances
     (map (fun r => if InstanceRow.id r =? instance_id
                    then row_of_request instance_id instance_update
                    else r)
          (instances db))
     db).
Proof.
  intros Hk Hp Hi. unfold PUT_instances, route.
  rewrite update_instance_run.
  destruct (lookup_row_found _ _ Hk) as (r0 & -> & _).
  destruct (lookup_found Project.id _ _ Hp) as (p & -> & _).
  destruct (lookup_found Item.id _ _ Hi) as (i & -> & _).
  reflexivity.
Qed.

(** C3. A create request whose two foreign keys resolve is answered 200
    with a row [r], and reading [r]'s key back from the resulting database
    is answered 200 with the very same [r], every field and the key
    included; the read leaves the database as it is. *)
Theorem create_then_get (instance : InstanceCreate.t num) (db : Database num) :
  valid_request db instance ->
  exists r db',
    POST_instances instance db = (JSONResponse 200 r, db') /\
    r = read_of_request (InstanceRead.id r) instance /\
    GET_instances_id (InstanceRead.id r) db' = (JSONResponse 200 r, db').
Proof.
  intro Hv. eexists _, _. split; [apply POST_instances_ok; exact Hv|].
  split; [reflexivity|].
  apply (GET_instances_id_found _ _
           (row_of_request (next_rowid (instances db)) instance)).
  cbn. apply select_first_app_fresh; [apply next_rowid_fresh|reflexivity].
Qed.


(** The goal of a request that raised: the outcome is the stated one and
    the session it left is the one the lookups built. *)
Ltac raised_untouched :=
  cbn [fst snd database];
  split;
  [ eexists _, _; split; [reflexivity|];
    cbn [database heap new deleted];
    repeat split; repeat constructor; intuition eauto
  | reflexivity ].

(** C5. An update request that fails one of its three existence checks
    mutates nothing, whether the failure is a 404 or the refusal of an id
    that cannot be bound.  The handler raises with the session in the
    state the lookups left it: the tables are those of the start, nothing
    is scheduled for insertion or deletion, and every object on the heap
    still carries the values of the row it was loaded from.  The database
    after the request is the database before it. *)
Theorem update_instance_failure_no_mutation (instance_id : Z)
  (instance_update : InstanceCreate.t num) (db : Database num) :
  ~ (In instance_id (instance_keys db) /\
     In (InstanceCreate.project_id instance_update) (project_keys db) /\
     In (InstanceCreate.item_id instance_update) (item_keys db)) ->
  (exists e s,
     update_instance instance_id instance_update (SessionLocal db) =
       (Raise e, s) /\
     database s = db /\ new s = [] /\ deleted s = [] /\
     Forall (fun obj => exists r, In r (instances db) /\
                                  obj = Instance.of_row r) (heap s)) /\
  snd (PUT_instances instance_id instance_update db) = db.
Proof.
  intro Hfail. unfold PUT_instances, route. rewrite update_instance_run.
  pose proof (lookup_row_inv instance_id (instances db)) as Hk.
  pose proof (lookup_inv Project.id
                (InstanceCreate.project_id instance_update) (projects db))
    as Hp.
  pose proof (lookup_inv Item.id
                (InstanceCreate.item_id instance_update) (items db)) as Hi.
  destruct (lookup instance_id _) as [r0| |];
    [destruct (lookup (InstanceCreate.project_id instance_update) _);
     destruct (lookup (InstanceCreate.item_id instance_update) _)| |];
    try raised_untouched.
  exfalso. apply Hfail. unfold instance_keys, project_keys, item_keys.
  tauto.
Qed.


(** C6. Deleting a key that has a row is answered with the confirmation,
    and the table afterwards is the old one without the rows of that key,
    so the key is gone; deleting the same key again, with nothing created
    in between, is answered 404 "Instance not found".  The second answer
    is stated for a key of the signed 64-bit range, which every key that
    the engine stores is. *)
Theorem delete_twice (instance_id : Z) (db : Database num) :
  In instance_id (instance_keys db) ->
  let db' :=
    with_instances
      (filter (fun r => negb (InstanceRow.id r =? instance_id))
              (instances db)) db in
  DELETE_instances instance_id db =
    (JSONResponse 204 deleted_message, db') /\
  ~ In instance_id (instance_keys db') /\
  (fits_int64 instance_id = true ->
   DELETE_instances instance_id db' =
     (ErrorResponse 404 "Instance not found", db')).
Proof.
  intros Hk db'.
  assert (select_first instance_id (instances db') = None) as Hgone
    by apply select_first_delete.
  unfold DELETE_instances, route. rewrite !delete_instance_run, Hgone.
  destruct (lookup_row_found _ _ Hk) as (r0 & -> & _).
  split; [reflexivity|]. split.
  - pose proof (find_key_inv InstanceRow.id instance_id (instances db'))
      as H.
    change (find _ _) with (select_first instance_id (instances db')) in H.
    rewrite Hgone in H. exact H.
  - intro Hfit. unfold lookup. rewrite Hfit. reflexivity.
Qed.

(** C7. Listing never fails: on every database the answer is 200 with as
    many rows as the table holds and the database is left as it is; when
    the primary keys of the table are pairwise distinct the rows answered
    are exactly the rows of the table, in table order; on an empty table
    the answer is the empty sequence; and after N create requests with
    resolving foreign keys on an empty table, the answer is exactly the N
    rows that the N creates returned. *)
Theorem list_instances_all (db : Database num) :
  (exists rs, GET_instances db = (JSONResponse 200 rs, db) /\
              List.length rs = List.length (instances db)) /\
  (NoDup (instance_keys db) ->
   GET_instances db =
   (JSONResponse 200 (map read_of_row (instances db)), db)) /\
  (instances db = [] -> GET_instances db = (JSONResponse 200 [], db)) /\
  (forall xs : list (InstanceCreate.t num),
     instances db = [] -> Forall (valid_request db) xs ->
     exists created,
       fst (create_all xs db) = map (JSONResponse 200) created /\
       List.length created = List.length xs /\
       GET_instances (snd (create_all xs db)) =
       (JSONResponse 200 created, snd (create_all xs db))).
Proof.
  split; [apply GET_instances_run|].
  split; [apply GET_instances_nodup|].
  split.
  - intro He. rewrite GET_instances_nodup.
    + rewrite He. reflexivity.
    + unfold instance_keys. rewrite He. constructor.
  - intros xs He Hv.
    assert (NoDup (instance_keys db)) as Hnd
      by (unfold instance_keys; rewrite He; constructor).
    destruct (create_all_run xs db Hv Hnd) as (rows & Hs & Hf & Hlen & Hnd').
    exists (map read_of_row rows). rewrite Hf, map_map, length_map.
    split; [reflexivity|]. split; [assumption|].
    rewrite (GET_instances_nodup _ Hnd'). rewrite Hs at 1.
    cbn. rewrite He. reflexivity.
Qed.

(** C8. No request changes the primary key of a stored row.  A create
    leaves every stored row as it is and only appends rows under keys that
    no stored row has; an update leaves the sequence of primary keys of
    the table as it is, whatever else it rewrites; a get and a list leave
    the database as it is; a delete leaves the surviving rows as they
    are. *)
Theorem primary_key_immutable (req : Request num) (db : Database num) :
  match req with
  | Create _ =>
      exists added,
        instances (serve req db) = instances db ++ added /\
        forall r, In r added -> ~ In (InstanceRow.id r) (instance_keys db)
  | Update _ _ => instance_keys (serve req db) = instance_keys db
  | Get _ => serve req db = db
  | ListAll => serve req db = db
  | Delete k =>
      instances (serve req db) =
      filter (fun r => negb (InstanceRow.id r =? k)) (instances db)
  end.
Proof.
  destruct req as [x|k u|k| |k]; cbn [serve].
  - unfold POST_instances, route. rewrite create_instance_run.
    lookups; cbn [snd database];
      try (exists []; split; [now rewrite app_nil_r|intros r []]).
    eexists. split; [reflexivity|].
    intros r [<-|[]]. apply next_rowid_fresh.
  - unfold PUT_instances, route. rewrite update_instance_run.
    lookups; try reflexivity.
    cbn [snd database]. unfold instance_keys. cbn [instances with_instances].
    now apply sql_update_keys.
  - unfold GET_instances_id, route. rewrite get_instance_run.
    lookups; reflexivity.
  - destruct (GET_instances_run db) as (rs & -> & _). reflexivity.
  - unfold DELETE_instances, route. rewrite delete_instance_run.
    pose proof (lookup_row_inv k (instances db)) as H.
    destruct (lookup k (select_first k (instances db)));
      [reflexivity| |];
      cbn [snd database SessionLocal]; symmetry;
      apply forallb_filter_id; apply forallb_forall;
      intros r Hr; apply negb_true_iff; apply Z.eqb_neq; intro Hid;
      apply H; apply in_map_iff; eauto.
Qed.

(** C9. A successful delete: the handler returns the dictionary
    [{"message": "Instance deleted successfully"}] that its docstring
    promises, and the route is declared with status 204, a status that
    carries no body; what is sent is 204 with no body, so the message
    never reaches the caller. *)
Theorem delete_sends_no_body (instance_id : Z) (db : Database num) :
  In instance_id (instance_keys db) ->
  fst (delete_instance instance_id (SessionLocal db)) =
    Return [("message"%string, "Instance deleted successfully"%string)] /\
  sent (fst (DELETE_instances instance_id db)) = (204, NoBody).
Proof.
  intro Hk. unfold DELETE_instances, route. rewrite delete_instance_run.
  destruct (lookup_row_found _ _ Hk) as (r0 & -> & _).
  split; reflexivity.
Qed.

(** C10. Reading is free of effects on the database: after a get, found or
    not, and after a list, the database is the one before the request. *)
Theorem get_and_list_read_only (instance_id : Z) (db : Database num) :
  snd (GET_instances_id instance_id db) = db /\
  snd (GET_instances db) = db.
Proof.
  split.
  - unfold GET_instances_id, route. rewrite get_instance_run.
    lookups; reflexivity.
  - destruct (GET_instances_run db) as (rs & -> & _). reflexivity.
Qed.


(** ** The routes in closed form *)

Lemma POST_instances_run (instance : InstanceCreate.t num)
  (db : Database num) :
  POST_instances instance db =
  match lookup (InstanceCreate.project_id instance)
          (find (fun p => Project.id p =? InstanceCreate.project_id instance)
                (projects db)),
        lookup (InstanceCreate.item_id instance)
          (find (fun i => Item.id i =? InstanceCreate.item_id instance)
                (items db)) with
  | Refused _, _ => (InternalServerError, db)
  | _, Refused _ => (InternalServerError, db)
  | Missing _, _ => (ErrorResponse 404 "Project not found", db)
  | Found _ _, Missing _ => (ErrorResponse 404 "Item not found", db)
  | Found _ _, Found _ _ =>
      let row := row_of_request (next_rowid (instances db)) instance in
      (JSONResponse 200 (read_of_row row),
       with_instances (instances db ++ [row]) db)
  end.
Proof.
  unfold POST_instances, route. rewrite create_instance_run.
  lookups; reflexivity.
Qed.

Lemma PUT_instances_run (instance_id : Z)
  (instance_update : InstanceCreate.t num) (db : Database num) :
  PUT_instances instance_id instance_update db =
  match lookup instance_id (select_first instance_id (instances db)) with
  | Refused _ => (InternalServerError, db)
  | Missing _ => (ErrorResponse 404 "Instance not found", db)
  | Found _ _ =>
      match lookup (InstanceCreate.project_id instance_update)
              (find (fun p => Project.id p =?
                               InstanceCreate.project_id instance_update)
                    (projects db)),
            lookup (InstanceCreate.item_id instance_update)
              (find (fun i => Item.id i =?
                               InstanceCreate.item_id instance_update)
                    (items db)) with
      | Refused _, _ => (InternalServerError, db)
      | _, Refused _ => (InternalServerError, db)
      | Missing _, _ => (ErrorResponse 404 "Project not found", db)
      | Found _ _, Missing _ => (ErrorResponse 404 "Item not found", db)
      | Found _ _, Found _ _ =>
          let row := row_of_request instance_id instance_update in
          (JSONResponse 200 (read_of_row row),
           with_instances (sql_update instance_id row (instances db)) db)
      end
  end.
Proof.
  unfold PUT_instances, route. rewrite update_instance_run.
  lookups; reflexivity.
Qed.

Lemma GET_instances_id_run (instance_id : Z) (db : Database num) :
  GET_instances_id instance_id db =
  match lookup instance_id (select_first instance_id (instances db)) with
  | Refused _ => (InternalServerError, db)
  | Missing _ => (ErrorResponse 404 "Instance not found", db)
  | Found _ r => (JSONResponse 200 (read_of_row r), db)
  end.
Proof.
  unfold GET_instances_id, route. rewrite get_instance_run.
  lookups; reflexivity.
Qed.

Lemma DELETE_instances_run (instance_id : Z) (db : Database num) :
  DELETE_instances instance_id db =
  match lookup instance_id (select_first instance_id (instances db)) with
  | Refused _ => (InternalServerError, db)
  | Missing _ => (ErrorResponse 404 "Instance not found", db)
  | Found _ _ =>
      (JSONResponse 204 deleted_message,
       with_instances (sql_delete instance_id (instances db)) db)
  end.
Proof.
  unfold DELETE_instances, route. rewrite delete_instance_run.
  lookups; reflexivity.
Qed.

Lemma serve_ListAll (db : Database num) : snd (GET_instances db) = db.
Proof. destruct (GET_instances_run db) as (rs & -> & _). reflexivity. Qed.

(** ** SQL on the table, key by key *)

Lemma select_first_update_other (j k : Z) (r' : InstanceRow.t num)
  (rows : list (InstanceRow.t num)) :
  j <> k -> InstanceRow.id r' = k ->
  select_first j (sql_update k r' rows) = select_first j rows.
Proof.
  intros Hjk Hr'. unfold select_first, sql_update, pk_is.
  induction rows as [|a rows IH]; [reflexivity|].
  cbn [map find].
  destruct (Z.eqb_spec (InstanceRow.id a) k) as [E|E].
  - rewrite Hr'.
    destruct (Z.eqb_spec k j); [congruence|].
    destruct (Z.eqb_spec (InstanceRow.id a) j); [congruence|]. exact IH.
  - destruct (InstanceRow.id a =? j); [reflexivity|exact IH].
Qed.

Lemma select_first_delete_other (j k : Z) (rows : list (InstanceRow.t num)) :
  j <> k -> select_first j (sql_delete k rows) = select_first j rows.
Proof.
  intros Hjk. unfold select_first, sql_delete, pk_is.
  induction rows as [|a rows IH]; [reflexivity|].
  cbn [filter find].
  destruct (Z.eqb_spec (InstanceRow.id a) k) as [E|E]; cbn [negb find].
  - destruct (Z.eqb_spec (InstanceRow.id a) j); [congruence|]. exact IH.
  - destruct (InstanceRow.id a =? j); [reflexivity|exact IH].
Qed.

Lemma select_first_app_old (j : Z) (rows : list (InstanceRow.t num))
  (r : InstanceRow.t num) :
  InstanceRow.id r <> j ->
  select_first j (rows ++ [r]) = select_first j rows.
Proof.
  intro Hr. unfold select_first, pk_is.
  induction rows as [|a rows IH]; cbn [app find].
  - destruct (Z.eqb_spec (InstanceRow.id r) j); [contradiction|].
    reflexivity.
  - destruct (InstanceRow.id a =? j); [reflexivity|exact IH].
Qed.

Lemma sql_update_twice (k : Z) (r1 r2 : InstanceRow.t num)
  (rows : list (InstanceRow.t num)) :
  InstanceRow.id r1 = k ->
  sql_update k r2 (sql_update k r1 rows) = sql_update k r2 rows.
Proof.
  intro H1. unfold sql_update. rewrite map_map. apply map_ext.
  intro r. unfold pk_is. destruct (Z.eqb_spec (InstanceRow.id r) k) as [E|E].
  - rewrite H1, Z.eqb_refl. reflexivity.
  - destruct (Z.eqb_spec (InstanceRow.id r) k); [contradiction|reflexivity].
Qed.

Lemma select_first_present (k : Z) (rows : list (InstanceRow.t num)) :
  select_first k rows <> None <-> In k (map InstanceRow.id rows).
Proof.
  pose proof (find_key_inv InstanceRow.id k rows) as H.
  change (find _ rows) with (select_first k rows) in H.
  destruct (select_first k rows); split; intro; try tauto; congruence.
Qed.


(** ** One request, table by table *)

Lemma serve_tables (req : Request num) (db : Database num) :
  projects (serve req db) = projects db /\ items (serve req db) = items db.
Proof.
  destruct req as [x|k u|k| |k]; cbn [serve].
  - rewrite POST_instances_run. lookups; split; reflexivity.
  - rewrite PUT_instances_run. lookups; split; reflexivity.
  - rewrite GET_instances_id_run. lookups; split; reflexivity.
  - rewrite serve_ListAll. split; reflexivity.
  - rewrite DELETE_instances_run. lookups; split; reflexivity.
Qed.

Lemma select_first_nodup (rows : list (InstanceRow.t num))
  (r : InstanceRow.t num) :
  NoDup (map InstanceRow.id rows) -> In r rows ->
  select_first (InstanceRow.id r) rows = Some r.
Proof.
  unfold select_first, pk_is.
  induction rows as [|a rows IH]; intros Hnd Hin; [destruct Hin|].
  cbn [map find] in *. inversion Hnd as [|? ? Hnotin Hnd']; subst.
  destruct Hin as [->|Hin]; [now rewrite Z.eqb_refl|].
  destruct (Z.eqb_spec (InstanceRow.id a) (InstanceRow.id r)) as [E|E].
  - exfalso. apply Hnotin. rewrite E. now apply in_map.
  - now apply IH.
Qed.

Lemma sql_delete_length (k : Z) (rows : list (InstanceRow.t num)) :
  NoDup (map InstanceRow.id rows) -> In k (map InstanceRow.id rows) ->
  S (List.length (sql_delete k rows)) = List.length rows.
Proof.
  unfold sql_delete, pk_is.
  induction rows as [|a rows IH]; intros Hnd Hin; [destruct Hin|].
  cbn [map filter List.length] in *.
  inversion Hnd as [|? ? Hnotin Hnd']; subst.
  destruct (Z.eqb_spec (InstanceRow.id a) k) as [E|E]; cbn [negb].
  - f_equal. subst k.
    rewrite forallb_filter_id; [reflexivity|].
    apply forallb_forall. intros r Hr. apply negb_true_iff, Z.eqb_neq.
    intro Heq. apply Hnotin. rewrite <- Heq. now apply in_map.
  - cbn [List.length]. f_equal. apply IH; [assumption|].
    destruct Hin as [Hin|Hin]; [contradiction|assumption].
Qed.

Lemma sql_delete_absent (k : Z) (rows : list (InstanceRow.t num)) :
  select_first k rows = None -> sql_delete k rows = rows.
Proof.
  intro H. unfold sql_delete. apply forallb_filter_id, forallb_forall.
  intros r Hr. apply negb_true_iff. unfold pk_is. apply Z.eqb_neq.
  intro Hid. assert (select_first k rows <> None) as Hp.
  { apply select_first_present. rewrite <- Hid. now apply in_map. }
  contradiction.
Qed.

Lemma sql_update_length (k : Z) (r' : InstanceRow.t num)
  (rows : list (InstanceRow.t num)) :
  List.length (sql_update k r' rows) = List.length rows.
Proof. unfold sql_update. apply length_map. Qed.

Lemma read_of_row_update (k : Z) (r' : InstanceRow.t num)
  (rows : list (InstanceRow.t num)) :
  map read_of_row (sql_update k r' rows) =
  map (fun r => if InstanceRead.id r =? k then read_of_row r' else r)
      (map read_of_row rows).
Proof. unfold sql_update, pk_is. rewrite !map_map. apply map_ext.
  intro r. cbn [read_of_row InstanceRead.id].
  destruct (InstanceRow.id r =? k); reflexivity.
Qed.

Lemma read_of_row_delete (k : Z) (rows : list (InstanceRow.t num)) :
  map read_of_row (sql_delete k rows) =
  filter (fun r => negb (InstanceRead.id r =? k)) (map read_of_row rows).
Proof.
  unfold sql_delete, pk_is.
  induction rows as [|a rows IH]; [reflexivity|].
  cbn [filter map read_of_row InstanceRead.id].
  destruct (InstanceRow.id a =? k); cbn [negb map]; now rewrite IH.
Qed.


(** ** Further properties of the router *)

(** X1. A create request whose two foreign keys resolve is answered 200
    with the request's eleven values under a key that no stored row has,
    and the table afterwards is the old table followed by exactly that
    row. *)
Theorem create_instance_appends_row (instance : InstanceCreate.t num)
  (db : Database num) :
  valid_request db instance ->
  exists k,
    ~ In k (instance_keys db) /\
    POST_instances instance db =
    (JSONResponse 200 (read_of_request k instance),
     with_instances (instances db ++ [row_of_request k instance]) db).
Proof.
  intros [Hp Hi]. exists (next_rowid (instances db)).
  split; [apply next_rowid_fresh|].
  rewrite POST_instances_run.
  destruct (lookup_found Project.id _ _ Hp) as (p & -> & _).
  destruct (lookup_found Item.id _ _ Hi) as (i & -> & _).
  reflexivity.
Qed.

(** X2. A get of a key that has a row is answered 200 with a stored row of
    that key; a get of a key that has none is answered 404 "Instance not
    found" when the key lies in the signed 64-bit range and with a server
    error when it does not.  The database is left as it is in each
    case. *)
Theorem get_instance_found_or_not (instance_id : Z) (db : Database num) :
  (In instance_id (instance_keys db) ->
   exists r, In r (instances db) /\ InstanceRow.id r = instance_id /\
     GET_instances_id instance_id db =
     (JSONResponse 200 (read_of_row r), db)) /\
  (~ In instance_id (instance_keys db) ->
   GET_instances_id instance_id db =
   (if fits_int64 instance_id
    then ErrorResponse 404 "Instance not found"
    else InternalServerError, db)).
Proof.
  rewrite GET_instances_id_run. split; intro Hk.
  - destruct (lookup_row_found _ _ Hk) as (r & -> & _ & Hid & Hin). eauto.
  - rewrite (select_first_none _ _ Hk). unfold lookup.
    destruct (fits_int64 instance_id); reflexivity.
Qed.

(** X3. A delete of a key that has no row leaves the database as it is;
    it is answered 404 "Instance not found" when the key lies in the
    signed 64-bit range and with a server error when it does not. *)
Theorem delete_instance_missing (instance_id : Z) (db : Database num) :
  ~ In instance_id (instance_keys db) ->
  DELETE_instances instance_id db =
  (if fits_int64 instance_id
   then ErrorResponse 404 "Instance not found"
   else InternalServerError, db).
Proof.
  intro Hk. rewrite DELETE_instances_run.
  rewrite (select_first_none _ _ Hk). unfold lookup.
  destruct (fits_int64 instance_id); reflexivity.
Qed.

(** X4. No run of requests to this router changes the projects table or
    the items table. *)
Theorem projects_and_items_untouched (reqs : list (Request num))
  (db : Database num) :
  projects (serve_all reqs db) = projects db /\
  items (serve_all reqs db) = items db.
Proof.
  revert db. induction reqs as [|req reqs IH]; intro db; cbn [serve_all].
  - split; reflexivity.
  - destruct (IH (serve req db)) as [Hp Hi].
    destruct (serve_tables req db) as [Hp' Hi'].
    split; congruence.
Qed.

(** X5. Each route answers as declared, or with a server error: a create
    is answered 200, or 404 with "Project not found" or "Item not found";
    an update 200, or 404 with "Instance not found", "Project not found"
    or "Item not found"; a get 200 or 404 "Instance not found"; a list
    200; a delete 204 or 404 "Instance not found".  The only other answer
    is a server error, and it is given only to a request that carries an
    id outside the signed 64-bit range. *)
Theorem answers_are_declared (req : Request num) (db : Database num) :
  In (answered req db) (declared req ++ [(500, None)]) /\
  (ids_fit req = true -> In (answered req db) (declared req)).
Proof.
  destruct req as [x|k u|k| |k]; cbn [answered declared ids_fit].
  - rewrite POST_instances_run.
    pose proof (lookup_inv Project.id (InstanceCreate.project_id x)
                  (projects db)) as Hp.
    pose proof (lookup_inv Item.id (InstanceCreate.item_id x)
                  (items db)) as Hi.
    destruct (lookup (InstanceCreate.project_id x) _);
      destruct (lookup (InstanceCreate.item_id x) _);
      cbn; split; intros; auto 10;
      exfalso; apply andb_prop in H; intuition congruence.
  - rewrite PUT_instances_run.
    pose proof (lookup_row_inv k (instances db)) as Hk.
    pose proof (lookup_inv Project.id (InstanceCreate.project_id u)
                  (projects db)) as Hp.
    pose proof (lookup_inv Item.id (InstanceCreate.item_id u)
                  (items db)) as Hi.
    destruct (lookup k _);
      [destruct (lookup (InstanceCreate.project_id u) _);
       destruct (lookup (InstanceCreate.item_id u) _)| |];
      cbn; split; intros; auto 10;
      exfalso; apply andb_prop in H; destruct H as [H H'];
      apply andb_prop in H; intuition congruence.
  - rewrite GET_instances_id_run.
    pose proof (lookup_row_inv k (instances db)) as Hk.
    destruct (lookup k _); cbn; split; intros; auto 10;
      exfalso; intuition congruence.
  - destruct (GET_instances_run db) as (rs & -> & _). cbn. auto.
  - rewrite DELETE_instances_run.
    pose proof (lookup_row_inv k (instances db)) as Hk.
    destruct (lookup k _); cbn; split; intros; auto 10;
      exfalso; intuition congruence.
Qed.

(** X6. Of two successful updates of the same key, the later one wins
    entirely: updating with [u1] and then with [u2] gives the answer and
    the database that updating with [u2] alone gives.  With [u1 = u2]:
    repeating an update changes nothing. *)
Theorem update_last_write_wins (instance_id : Z)
  (u1 u2 : InstanceCreate.t num) (db : Database num) :
  In instance_id (instance_keys db) ->
  valid_request db u1 -> valid_request db u2 ->
  PUT_instances instance_id u2 (snd (PUT_instances instance_id u1 db)) =
  PUT_instances instance_id u2 db.
Proof.
  intros Hk [Hp1 Hi1] [Hp2 Hi2]. rewrite !PUT_instances_run.
  destruct (lookup_row_found _ _ Hk) as (r0 & -> & E0 & _).
  destruct (lookup_found Project.id _ _ Hp1) as (p1 & -> & _).
  destruct (lookup_found Item.id _ _ Hi1) as (i1 & -> & _).
  cbn [snd projects items instances with_instances].
  destruct (lookup_found Project.id _ _ Hp2) as (p2 & -> & _).
  destruct (lookup_found Item.id _ _ Hi2) as (i2 & -> & _).
  rewrite (select_first_update instance_id (instances db) r0
             (row_of_request instance_id u1) E0 eq_refl).
  cbn [lookup]. cbv zeta. unfold with_instances.
  cbn [projects items instances].
  rewrite sql_update_twice; reflexivity.
Qed.

(** X7. After a successful update of a key, a get of that key is answered
    with exactly the values of the update request. *)
Theorem update_then_get (instance_id : Z)
  (instance_update : InstanceCreate.t num) (db : Database num) :
  In instance_id (instance_keys db) ->
  valid_request db instance_update ->
  fst (GET_instances_id instance_id
         (snd (PUT_instances instance_id instance_update db))) =
  JSONResponse 200 (read_of_request instance_id instance_update).
Proof.
  intros Hk [Hp Hi]. rewrite PUT_instances_run, GET_instances_id_run.
  destruct (lookup_row_found _ _ Hk) as (r0 & -> & E0 & _).
  destruct (lookup_found Project.id _ _ Hp) as (p & -> & _).
  destruct (lookup_found Item.id _ _ Hi) as (i & -> & _).
  cbn [snd instances with_instances].
  rewrite (select_first_update instance_id (instances db) r0
             (row_of_request instance_id instance_update) E0 eq_refl).
  reflexivity.
Qed.

(** X8. A request leaves the other keys alone: after an update or a delete
    of key [k], whether it succeeds or not, a get of any other key is
    answered as before; after a create, a get of any key that had a row is
    answered as before; a get and a list change no answer at all. *)
Theorem other_keys_untouched (req : Request num) (db : Database num)
  (j : Z) :
  match req with
  | Create _ => In j (instance_keys db)
  | Update k _ => j <> k
  | Delete k => j <> k
  | Get _ => True
  | ListAll => True
  end ->
  fst (GET_instances_id j (serve req db)) = fst (GET_instances_id j db).
Proof.
  destruct req as [x|k u|k| |k]; cbn [serve]; intro H.
  - rewrite POST_instances_run. lookups; try reflexivity.
    rewrite !GET_instances_id_run. cbn [snd instances with_instances].
    rewrite select_first_app_old; [lookups; reflexivity|].
    cbn [InstanceRow.id row_of_request]. intro E. subst j.
    exact (next_rowid_fresh _ H).
  - rewrite PUT_instances_run. lookups; try reflexivity.
    rewrite !GET_instances_id_run. cbn [snd instances with_instances].
    rewrite select_first_update_other; [|assumption|reflexivity].
    lookups; reflexivity.
  - rewrite (GET_instances_id_run k). lookups; reflexivity.
  - rewrite serve_ListAll. reflexivity.
  - rewrite DELETE_instances_run. lookups; try reflexivity.
    rewrite !GET_instances_id_run. cbn [snd instances with_instances].
    rewrite select_first_delete_other; [|assumption].
    lookups; reflexivity.
Qed.

(** X9. After a delete of a key, found or not, no row is left under that
    key: a get of it is answered 404 "Instance not found" when the key
    lies in the signed 64-bit range and with a server error when it does
    not, and a further delete of it changes the database no more. *)
Theorem delete_then_get (instance_id : Z) (db : Database num) :
  ~ In instance_id
       (instance_keys (snd (DELETE_instances instance_id db))) /\
  fst (GET_instances_id instance_id
         (snd (DELETE_instances instance_id db))) =
  (if fits_int64 instance_id
   then ErrorResponse 404 "Instance not found"
   else InternalServerError) /\
  snd (DELETE_instances instance_id
         (snd (DELETE_instances instance_id db))) =
  snd (DELETE_instances instance_id db).
Proof.
  assert (select_first instance_id
            (instances (snd (DELETE_instances instance_id db))) = None)
    as Hgone.
  { rewrite DELETE_instances_run.
    pose proof (lookup_row_inv instance_id (instances db)) as H.
    destruct (lookup instance_id _);
      cbn [snd instances with_instances];
      [apply select_first_delete|tauto|tauto]. }
  split; [|split].
  - pose proof (find_key_inv InstanceRow.id instance_id
                  (instances (snd (DELETE_instances instance_id db)))) as H.
    change (find _ _) with
      (select_first instance_id
         (instances (snd (DELETE_instances instance_id db)))) in H.
    rewrite Hgone in H. exact H.
  - rewrite GET_instances_id_run, Hgone. unfold lookup.
    destruct (fits_int64 instance_id); reflexivity.
  - rewrite (DELETE_instances_run _ (snd _)), Hgone. unfold lookup.
    destruct (fits_int64 instance_id); reflexivity.
Qed.


(** X10. The number of stored rows: a create with resolving foreign keys
    adds one and any other create adds none; an update, a get and a list
    keep the number; a delete of a missing key keeps it, and a delete of a
    key that has a row removes exactly one row when the keys of the table
    are pairwise distinct. *)
Theorem row_count (req : Request num) (db : Database num) :
  let before := List.length (instances db) in
  let after := List.length (instances (serve req db)) in
  match req with
  | Create x =>
      (valid_request db x -> after = S before) /\
      (~ valid_request db x -> after = before)
  | Update _ _ => after = before
  | Get _ => after = before
  | ListAll => after = before
  | Delete k =>
      (~ In k (instance_keys db) -> after = before) /\
      (NoDup (instance_keys db) -> In k (instance_keys db) ->
       S after = before)
  end.
Proof.
  destruct req as [x|k u|k| |k]; cbn [serve]; cbv zeta.
  - rewrite POST_instances_run.
    pose proof (lookup_inv Project.id (InstanceCreate.project_id x)
                  (projects db)) as Hp.
    pose proof (lookup_inv Item.id (InstanceCreate.item_id x)
                  (items db)) as Hi.
    unfold valid_request, project_keys, item_keys.
    destruct (lookup (InstanceCreate.project_id x) _);
      destruct (lookup (InstanceCreate.item_id x) _);
      cbn [snd instances with_instances]; split; intro H;
      try reflexivity; try tauto.
    rewrite length_app. cbn [List.length]. apply Nat.add_1_r.
  - rewrite PUT_instances_run. lookups; try reflexivity.
    cbn [snd instances with_instances]. apply sql_update_length.
  - rewrite GET_instances_id_run. lookups; reflexivity.
  - rewrite serve_ListAll. reflexivity.
  - rewrite DELETE_instances_run. split.
    + intro Hk. rewrite (select_first_none _ _ Hk). unfold lookup.
      destruct (fits_int64 k); reflexivity.
    + intros Hnd Hk. destruct (lookup_row_found _ _ Hk) as (r & -> & _).
      cbn [snd instances with_instances]. now apply sql_delete_length.
Qed.

(** X11. The primary key constraint is an invariant of the router: if the
    keys of the instances table are pairwise distinct, they still are after
    any run of requests. *)
Theorem primary_keys_stay_distinct (reqs : list (Request num))
  (db : Database num) :
  NoDup (instance_keys db) -> NoDup (instance_keys (serve_all reqs db)).
Proof.
  revert db. induction reqs as [|req reqs IH]; intros db Hnd;
    cbn [serve_all]; [exact Hnd|].
  apply IH. now apply serve_keeps_keys_distinct.
Qed.

(** X12. A list shows what the writes did.  On a table with pairwise
    distinct keys: after a create with resolving foreign keys the list is
    the old list followed by the row the create returned; after a
    successful update of key [k] it is the old list with the row of key
    [k] replaced, in place, by the values of the request; after a delete
    of key [k] it is the old list without the row of key [k]. *)
Theorem list_follows_writes (req : Request num) (db : Database num) :
  NoDup (instance_keys db) ->
  let before := map read_of_row (instances db) in
  match req with
  | Create x =>
      valid_request db x ->
      exists r,
        fst (POST_instances x db) = JSONResponse 200 r /\
        fst (GET_instances (serve req db)) =
        JSONResponse 200 (before ++ [r])
  | Update k u =>
      In k (instance_keys db) -> valid_request db u ->
      fst (GET_instances (serve req db)) =
      JSONResponse 200
        (map (fun r => if InstanceRead.id r =? k
                       then read_of_request k u else r) before)
  | Delete k =>
      fst (GET_instances (serve req db)) =
      JSONResponse 200
        (filter (fun r => negb (InstanceRead.id r =? k)) before)
  | Get _ => fst (GET_instances (serve req db)) = JSONResponse 200 before
  | ListAll => fst (GET_instances (serve req db)) = JSONResponse 200 before
  end.
Proof.
  intros Hnd before. subst before.
  pose proof (serve_keeps_keys_distinct req db Hnd) as Hnd'.
  pose proof (GET_instances_nodup _ Hnd') as Hlist.
  destruct req as [x|k u|k| |k]; cbn [serve] in *.
  - intros [Hp Hi]. rewrite Hlist. rewrite POST_instances_run.
    destruct (lookup_found Project.id _ _ Hp) as (p & -> & _).
    destruct (lookup_found Item.id _ _ Hi) as (i & -> & _).
    eexists. split; [reflexivity|].
    cbn [fst snd instances with_instances]. now rewrite map_app.
  - intros Hk [Hp Hi]. rewrite Hlist. rewrite PUT_instances_run.
    destruct (lookup_row_found _ _ Hk) as (r0 & -> & _).
    destruct (lookup_found Project.id _ _ Hp) as (p & -> & _).
    destruct (lookup_found Item.id _ _ Hi) as (i & -> & _).
    cbn [fst snd instances with_instances]. now rewrite read_of_row_update.
  - rewrite Hlist. rewrite GET_instances_id_run. lookups; reflexivity.
  - rewrite Hlist. rewrite serve_ListAll. reflexivity.
  - rewrite Hlist. rewrite DELETE_instances_run.
    pose proof (lookup_row_inv k (instances db)) as H.
    destruct (lookup k _); cbn [fst snd instances with_instances].
    + now rewrite read_of_row_delete.
    + destruct H as (E & _).
      rewrite <- read_of_row_delete, (sql_delete_absent _ _ E). reflexivity.
    + destruct H as (E & _).
      rewrite <- read_of_row_delete, (sql_delete_absent _ _ E). reflexivity.
Qed.

(** X13. The keys that a run of creates hands out are pairwise distinct
    and none of them was in the table before: on a table with pairwise
    distinct keys, every create of the run with resolving foreign keys is
    answered 200, and the ids of the answered rows have no repetition and
    no element among the old keys. *)
Theorem created_keys_distinct (xs : list (InstanceCreate.t num))
  (db : Database num) :
  NoDup (instance_keys db) -> Forall (valid_request db) xs ->
  exists created,
    fst (create_all xs db) = map (JSONResponse 200) created /\
    NoDup (map InstanceRead.id created) /\
    forall r, In r created -> ~ In (InstanceRead.id r) (instance_keys db).
Proof.
  intros Hnd Hv.
  destruct (create_all_run xs db Hv Hnd) as (rows & Hs & Hf & _ & Hnd').
  exists (map read_of_row rows). rewrite Hf, !map_map.
  rewrite Hs in Hnd'. unfold instance_keys in *.
  cbn [instances with_instances] in Hnd'. rewrite map_app in Hnd'.
  change (map (fun x => InstanceRead.id (read_of_row x)) rows)
    with (map InstanceRow.id rows).
  split; [reflexivity|]. split.
  - eapply NoDup_app_remove_l. exact Hnd'.
  - intros r Hr Hin. apply in_map_iff in Hr. destruct Hr as (row & <- & Hrow).
    cbn [read_of_row InstanceRead.id] in Hin.
    revert Hnd' Hin Hrow. generalize (map InstanceRow.id (instances db)).
    intros keys. induction keys as [|a keys IH]; intros Hnd' Hin Hrow;
      [destruct Hin|].
    cbn [app] in Hnd'. inversion Hnd' as [|? ? Hnotin Hnd'']; subst.
    destruct Hin as [->|Hin]; [|now apply IH].
    apply Hnotin. apply in_or_app. right. now apply in_map.
Qed.

(** X14. A get and a list agree: on a table with pairwise distinct keys, a
    row is in the list exactly when a get of its id is answered 200 with
    that very row. *)
Theorem list_and_get_agree (db : Database num) :
  NoDup (instance_keys db) ->
  exists rs,
    GET_instances db = (JSONResponse 200 rs, db) /\
    forall r, In r rs <->
              fst (GET_instances_id (InstanceRead.id r) db) =
              JSONResponse 200 r.
Proof.
  intro Hnd. exists (map read_of_row (instances db)).
  split; [now apply GET_instances_nodup|].
  intro r. rewrite GET_instances_id_run. split.
  - intro Hr. apply in_map_iff in Hr. destruct Hr as (row & <- & Hrow).
    cbn [read_of_row InstanceRead.id].
    rewrite (select_first_nodup _ _ Hnd Hrow). reflexivity.
  - pose proof (lookup_row_inv (InstanceRead.id r) (instances db)) as H.
    destruct (lookup (InstanceRead.id r) _) as [row| |];
      cbn [fst]; intro H'; try discriminate.
    injection H' as <-. apply in_map. tauto.
Qed.

(** X15. The existence checks keep the references sound: if every stored
    instance names a project and an item that exist, this still holds
    after any run of requests to this router. *)
Theorem references_stay_resolved (reqs : list (Request num))
  (db : Database num) :
  references_resolve db -> references_resolve (serve_all reqs db).
Proof.
  revert db. induction reqs as [|req reqs IH]; intros db Hok;
    cbn [serve_all]; [exact Hok|].
  apply IH. clear IH reqs.
  destruct req as [x|k u|k| |k]; cbn [serve].
  - rewrite POST_instances_run.
    pose proof (lookup_inv Project.id (InstanceCreate.project_id x)
                  (projects db)) as Hp.
    pose proof (lookup_inv Item.id (InstanceCreate.item_id x)
                  (items db)) as Hi.
    destruct (lookup (InstanceCreate.project_id x) _);
      destruct (lookup (InstanceCreate.item_id x) _); try exact Hok.
    intros r Hr. cbn [snd instances with_instances] in Hr.
    apply in_app_or in Hr. destruct Hr as [Hr|[<-|[]]]; [now apply Hok|].
    split; [apply Hp|apply Hi].
  - rewrite PUT_instances_run.
    pose proof (lookup_inv Project.id (InstanceCreate.project_id u)
                  (projects db)) as Hp.
    pose proof (lookup_inv Item.id (InstanceCreate.item_id u)
                  (items db)) as Hi.
    destruct (lookup k _); [|exact Hok|exact Hok].
    destruct (lookup (InstanceCreate.project_id u) _);
      destruct (lookup (InstanceCreate.item_id u) _); try exact Hok.
    intros r Hr. cbn [snd instances with_instances] in Hr.
    unfold sql_update in Hr. apply in_map_iff in Hr.
    destruct Hr as (r1 & Hr1 & Hin).
    destruct (pk_is k r1); subst r; [|now apply Hok].
    split; [apply Hp|apply Hi].
  - rewrite GET_instances_id_run. lookups; exact Hok.
  - rewrite serve_ListAll. exact Hok.
  - rewrite DELETE_instances_run. lookups; try exact Hok.
    intros r Hr. cbn [snd instances with_instances] in Hr.
    unfold sql_delete in Hr. apply filter_In in Hr. now apply Hok.
Qed.


(** ** What a request leaves in its session *)

Lemma load_in_sync (row : InstanceRow.t num) (s : Session num) :
  In row (instances (database s)) -> in_sync s ->
  in_sync (snd (load row s)) /\
  new (snd (load row s)) = new s /\
  deleted (snd (load row s)) = deleted s /\
  database (snd (load row s)) = database s.
Proof.
  intros Hrow Hs. unfold load.
  destruct (find _ (identity_map s)) as [[k o]|]; cbn [snd]; [tauto|].
  split; [|split; [|split]]; try reflexivity. intros k o Hin.
  cbn [identity_map set_identity_map set_heap heap database] in *.
  apply in_app_or in Hin. destruct Hin as [Hin|[Hin|[]]].
  - destruct (Hs k o Hin) as (r & Hr & Hk & Hn). exists r.
    repeat split; try assumption.
    rewrite nth_error_app1; [assumption|].
    apply nth_error_Some. congruence.
  - injection Hin as <- <-. exists row. repeat split; [assumption|].
    rewrite nth_error_app2, Nat.sub_diag; [reflexivity|apply Nat.le_refl].
Qed.

Lemma load_all_in_sync (rows : list (InstanceRow.t num)) (s : Session num) :
  incl rows (instances (database s)) -> in_sync s ->
  in_sync (snd (load_all rows s)) /\
  new (snd (load_all rows s)) = new s /\
  deleted (snd (load_all rows s)) = deleted s.
Proof.
  revert s. induction rows as [|row rows IH]; intros s Hincl Hs;
    [cbn; tauto|].
  cbn [load_all]. unfold andThen.
  assert (In row (instances (database s))) as Hrow
    by (apply Hincl; now left).
  destruct (load_in_sync row s Hrow Hs) as (Hs1 & Hn1 & Hd1 & Hdb1).
  assert (exists o s1, load row s = (Return o, s1)) as (o & s1 & E1).
  { unfold load. destruct (find _ (identity_map s)) as [[k o]|]; eauto. }
  rewrite E1 in *. cbn [snd] in *.
  destruct (IH s1) as (Hs2 & Hn2 & Hd2); [|assumption|].
  { rewrite Hdb1. intros r Hr. apply Hincl. now right. }
  destruct (load_all rows s1) as [[os|e] s2]; unfold ret; cbn [snd] in *;
    (split; [exact Hs2|split; congruence]).
Qed.

Lemma sql_update_hit (k : Z) (r0 r' : InstanceRow.t num)
  (rows : list (InstanceRow.t num)) :
  select_first k rows = Some r0 -> In r' (sql_update k r' rows).
Proof.
  intro H. destruct (select_first_key _ _ _ H) as [Hid Hin].
  unfold sql_update. apply in_map_iff. exists r0. split; [|assumption].
  unfold pk_is. rewrite Hid, Z.eqb_refl. reflexivity.
Qed.

(** X16. No request ends with an uncommitted change: whatever the request
    and whatever its outcome, the session its handler leaves has nothing
    scheduled for insertion or deletion, and every persistent object in it
    carries the values of a stored row of its key.  Closing the session
    therefore discards nothing. *)
Theorem no_request_leaves_uncommitted_work (req : Request num)
  (db : Database num) :
  nothing_uncommitted (session_after req db).
Proof.
  assert (forall db' h, @in_sync num (mkSession db' h [] [] [])) as Hnone
    by (intros db' h k' o []).
  assert (forall db' r k,
            In r (instances db') -> InstanceRow.id r = k ->
            @in_sync num (mkSession db' [Instance.of_row r] [(k, O)] [] []))
    as Hone.
  { intros db' r k Hin Hid k' o [H|[]]. injection H as <- <-.
    exists r. auto. }
  destruct req as [x|k u|k| |k]; cbn [session_after].
  - rewrite create_instance_run.
    lookups; cbn [snd];
      (split; [reflexivity|split; [reflexivity|]]); try apply Hnone.
    apply Hone; [|reflexivity].
    cbn [instances with_instances]. apply in_or_app. right. now left.
  - rewrite update_instance_run.
    pose proof (lookup_row_inv k (instances db)) as H.
    destruct (lookup k _) as [r0| |];
      [|split; [reflexivity|split; [reflexivity|apply Hnone]]
       |split; [reflexivity|split; [reflexivity|apply Hnone]]].
    destruct H as (E0 & Hid & Hin & _).
    lookups; cbn [snd];
      (split; [reflexivity|split; [reflexivity|]]);
      try (apply Hone; assumption).
    apply Hone; [|reflexivity].
    cbn [instances with_instances]. eapply sql_update_hit. exact E0.
  - rewrite get_instance_run.
    pose proof (lookup_row_inv k (instances db)) as H.
    destruct (lookup k _) as [r0| |];
      cbn [snd]; (split; [reflexivity|split; [reflexivity|]]);
      try apply Hnone.
    apply Hone; tauto.
  - unfold list_instances, query_Instance_all, andThen.
    destruct (load_all_in_sync (instances db) (SessionLocal db))
      as (Hs & Hn & Hd); [apply incl_refl|apply Hnone|].
    change (instances (database (SessionLocal db))) with (instances db).
    destruct (load_all (instances db) (SessionLocal db))
      as [[os|e] s]; unfold ret; cbn [snd] in *;
      (split; [exact Hn|split; [exact Hd|exact Hs]]).
  - rewrite delete_instance_run.
    lookups; cbn [snd];
      (split; [reflexivity|split; [reflexivity|apply Hnone]]).
Qed.

End Properties.

(** ** The properties on the sample databases *)



Lemma update_instance_full_replace_witness :
  PUT_instances 2 sample_request sample_db =
  (JSONResponse 200 (InstanceRead.mk 2 1 1 10 20 30 0 45 0 3 3 3),
   mkDatabase
     [Project.mk 1]
     [Item.mk 1 (Some "chair"%string) None None]
     [InstanceRow.mk 1 1 1 0 0 0 0 0 0 1 1 1;
      InstanceRow.mk 2 1 1 10 20 30 0 45 0 3 3 3]).
Proof.
  apply (update_instance_full_replace 2 sample_request sample_db);
    simpl; lia.
Defined.

Lemma create_then_get_witness :
  valid_request sample_db sample_request /\
  exists r db',
    POST_instances sample_request sample_db = (JSONResponse 200 r, db') /\
    r = read_of_request (InstanceRead.id r) sample_request /\
    GET_instances_id (InstanceRead.id r) db' = (JSONResponse 200 r, db').
Proof.
  assert (valid_request sample_db sample_request) as Hv
    by (split; simpl; lia).
  split; [exact Hv|].
  exact (create_then_get sample_request sample_db Hv).
Defined.



Lemma update_instance_failure_no_mutation_witness :
  ~ (In 1 (instance_keys sample_db) /\
     In 1 (project_keys sample_db) /\
     In 9 (item_keys sample_db)) /\
  snd (PUT_instances 1 request_without_item sample_db) = sample_db /\
  snd (PUT_instances (2 ^ 63) sample_request sample_db) = sample_db.
Proof.
  assert (~ (In 1 (instance_keys sample_db) /\
             In 1 (project_keys sample_db) /\
             In 9 (item_keys sample_db))) as H by (simpl; lia).
  assert (~ (In (2 ^ 63) (instance_keys sample_db) /\
             In 1 (project_keys sample_db) /\
             In 1 (item_keys sample_db))) as Hw by (simpl; lia).
  split; [exact H|]. split.
  - exact (proj2 (update_instance_failure_no_mutation 1
                    request_without_item sample_db H)).
  - exact (proj2 (update_instance_failure_no_mutation (2 ^ 63)
                    sample_request sample_db Hw)).
Defined.

Lemma delete_twice_witness :
  In 1 (instance_keys sample_db) /\
  DELETE_instances 1 sample_db =
    (JSONResponse 204 deleted_message,
     mkDatabase
       [Project.mk 1]
       [Item.mk 1 (Some "chair"%string) None None]
       [InstanceRow.mk 2 1 1 4 5 6 0 0 90 2 2 2]) /\
  DELETE_instances 1
    (mkDatabase
       [Project.mk 1]
       [Item.mk 1 (Some "chair"%string) None None]
       [InstanceRow.mk 2 1 1 4 5 6 0 0 90 2 2 2]) =
    (ErrorResponse 404 "Instance not found",
     mkDatabase
       [Project.mk 1]
       [Item.mk 1 (Some "chair"%string) None None]
       [InstanceRow.mk 2 1 1 4 5 6 0 0 90 2 2 2]).
Proof.
  assert (In 1 (instance_keys sample_db)) as H by (simpl; lia).
  split; [exact H|].
  split.
  - exact (proj1 (delete_twice 1 sample_db H)).
  - exact (proj2 (proj2 (delete_twice 1 sample_db H)) eq_refl).
Defined.

Lemma list_instances_all_witness :
  GET_instances sample_db =
    (JSONResponse 200 (map read_of_row (instances sample_db)), sample_db) /\
  GET_instances empty_db = (JSONResponse 200 [], empty_db) /\
  exists created,
    fst (create_all [sample_request; sample_request; sample_request]
           empty_db) = map (JSONResponse 200) created /\
    List.length created = 3%nat /\
    GET_instances
      (snd (create_all [sample_request; sample_request; sample_request]
              empty_db)) =
    (JSONResponse 200 created,
     snd (create_all [sample_request; sample_request; sample_request]
            empty_db)).
Proof.
  split; [|split].
  - apply (proj1 (proj2 (list_instances_all sample_db))).
    repeat constructor; simpl; lia.
  - apply (proj1 (proj2 (proj2 (list_instances_all empty_db)))).
    reflexivity.
  - apply (proj2 (proj2 (proj2 (list_instances_all empty_db)))).
    + reflexivity.
    + repeat constructor; simpl; lia.
Defined.

Lemma delete_sends_no_body_witness :
  In 2 (instance_keys sample_db) /\
  fst (delete_instance 2 (SessionLocal sample_db)) =
    Return [("message"%string, "Instance deleted successfully"%string)] /\
  sent (fst (DELETE_instances 2 sample_db)) = (204, NoBody).
Proof.
  assert (In 2 (instance_keys sample_db)) as H by (simpl; lia).
  split; [exact H|].
  exact (delete_sends_no_body 2 sample_db H).
Defined.

(** ** The scenario of the specification, run *)

(** On a database seeded with project 1 and item 1, creating an instance
    at the origin with unit scale is answered 200 with key 1 and the
    fields echoed. *)
Example scenario_create :
  POST_instances (InstanceCreate.mk 1 1 0 0 0 0 0 0 1 1 1) empty_db =
  (JSONResponse 200 (InstanceRead.mk 1 1 1 0 0 0 0 0 0 1 1 1),
   mkDatabase
     [Project.mk 1]
     [Item.mk 1 (Some "chair"%string) None None]
     [InstanceRow.mk 1 1 1 0 0 0 0 0 0 1 1 1]).
Proof. reflexivity. Qed.

(** Reading key 1 back gives the identical row. *)
Example scenario_get :
  fst (GET_instances_id 1
         (snd (POST_instances (InstanceCreate.mk 1 1 0 0 0 0 0 0 1 1 1)
                 empty_db))) =
  JSONResponse 200 (InstanceRead.mk 1 1 1 0 0 0 0 0 0 1 1 1).
Proof. reflexivity. Qed.

(** Updating key 2 of the sample database with one changed value still
    writes all eleven values of the request. *)
Example scenario_update :
  snd (PUT_instances 2 (InstanceCreate.mk 1 1 4 5 6 0 0 90 2 2 7) sample_db) =
  mkDatabase
    [Project.mk 1]
    [Item.mk 1 (Some "chair"%string) None None]
    [InstanceRow.mk 1 1 1 0 0 0 0 0 0 1 1 1;
     InstanceRow.mk 2 1 1 4 5 6 0 0 90 2 2 7].
Proof. reflexivity. Qed.

(** Listing the sample database, then deleting key 1 and listing again. *)
Example scenario_list :
  fst (GET_instances sample_db) =
  JSONResponse 200
    [InstanceRead.mk 1 1 1 0 0 0 0 0 0 1 1 1;
     InstanceRead.mk 2 1 1 4 5 6 0 0 90 2 2 2].
Proof. reflexivity. Qed.

Example scenario_delete_then_list :
  fst (GET_instances (snd (DELETE_instances 1 sample_db))) =
  JSONResponse 200 [InstanceRead.mk 2 1 1 4 5 6 0 0 90 2 2 2].
Proof. reflexivity. Qed.

(** A key freed by the deletion of the last row is given out again. *)
Example scenario_key_reuse :
  fst (POST_instances sample_request (snd (DELETE_instances 2 sample_db))) =
  JSONResponse 200 (InstanceRead.mk 2 1 1 10 20 30 0 45 0 3 3 3).
Proof. reflexivity. Qed.

(** ** The further properties on the sample databases *)

Lemma create_instance_appends_row_witness :
  valid_request sample_db sample_request /\
  exists k,
    ~ In k (instance_keys sample_db) /\
    POST_instances sample_request sample_db =
    (JSONResponse 200 (read_of_request k sample_request),
     with_instances
       (instances sample_db ++ [row_of_request k sample_request])
       sample_db).
Proof.
  assert (valid_request sample_db sample_request) as Hv
    by (split; simpl; lia).
  split; [exact Hv|].
  exact (create_instance_appends_row sample_request sample_db Hv).
Defined.

Lemma get_instance_found_or_not_witness :
  (In 2 (instance_keys sample_db) /\
   exists r, In r (instances sample_db) /\ InstanceRow.id r = 2 /\
     GET_instances_id 2 sample_db =
     (JSONResponse 200 (read_of_row r), sample_db)) /\
  (~ In 5 (instance_keys sample_db) /\
   GET_instances_id 5 sample_db =
   (ErrorResponse 404 "Instance not found", sample_db)) /\
  (~ In (2 ^ 63) (instance_keys sample_db) /\
   GET_instances_id (2 ^ 63) sample_db = (InternalServerError, sample_db)).
Proof.
  assert (In 2 (instance_keys sample_db)) as H2 by (simpl; lia).
  assert (~ In 5 (instance_keys sample_db)) as H5 by (simpl; lia).
  assert (~ In (2 ^ 63) (instance_keys sample_db)) as Hw by (simpl; lia).
  split; [|split]; (split; [assumption|]).
  - exact (proj1 (get_instance_found_or_not 2 sample_db) H2).
  - exact (proj2 (get_instance_found_or_not 5 sample_db) H5).
  - exact (proj2 (get_instance_found_or_not (2 ^ 63) sample_db) Hw).
Defined.

Lemma delete_instance_missing_witness :
  (~ In 5 (instance_keys sample_db) /\
   DELETE_instances 5 sample_db =
   (ErrorResponse 404 "Instance not found", sample_db)) /\
  (~ In (2 ^ 63) (instance_keys sample_db) /\
   DELETE_instances (2 ^ 63) sample_db = (InternalServerError, sample_db)).
Proof.
  assert (~ In 5 (instance_keys sample_db)) as H5 by (simpl; lia).
  assert (~ In (2 ^ 63) (instance_keys sample_db)) as Hw by (simpl; lia).
  split; (split; [assumption|]).
  - exact (delete_instance_missing 5 sample_db H5).
  - exact (delete_instance_missing (2 ^ 63) sample_db Hw).
Defined.

Lemma update_last_write_wins_witness :
  PUT_instances 2 (InstanceCreate.mk 1 1 7 7 7 8 8 8 9 9 9)
    (snd (PUT_instances 2 sample_request sample_db)) =
  PUT_instances 2 (InstanceCreate.mk 1 1 7 7 7 8 8 8 9 9 9) sample_db.
Proof.
  apply (update_last_write_wins 2 sample_request
           (InstanceCreate.mk 1 1 7 7 7 8 8 8 9 9 9) sample_db).
  - simpl; lia.
  - split; simpl; lia.
  - split; simpl; lia.
Defined.

Lemma update_then_get_witness :
  fst (GET_instances_id 2
         (snd (PUT_instances 2 sample_request sample_db))) =
  JSONResponse 200 (InstanceRead.mk 2 1 1 10 20 30 0 45 0 3 3 3).
Proof.
  apply (update_then_get 2 sample_request sample_db).
  - simpl; lia.
  - split; simpl; lia.
Defined.

Lemma other_keys_untouched_witness :
  fst (GET_instances_id 1 (serve (Update 2 sample_request) sample_db)) =
    fst (GET_instances_id 1 sample_db) /\
  fst (GET_instances_id 2 (serve (Delete 1) sample_db)) =
    fst (GET_instances_id 2 sample_db) /\
  fst (GET_instances_id 2 (serve (Create sample_request) sample_db)) =
    fst (GET_instances_id 2 sample_db).
Proof.
  split; [|split].
  - apply (other_keys_untouched (Update 2 sample_request) sample_db 1).
    simpl; lia.
  - apply (other_keys_untouched (Delete 1) sample_db 2). simpl; lia.
  - apply (other_keys_untouched (Create sample_request) sample_db 2).
    simpl; lia.
Defined.

Lemma row_count_witness :
  List.length (instances (serve (Create sample_request) sample_db)) =
    3%nat /\
  S (List.length (instances (serve (Delete 1) sample_db))) = 2%nat /\
  List.length (instances (serve (Delete 5) sample_db)) = 2%nat.
Proof.
  split; [|split].
  - apply (proj1 (row_count (Create sample_request) sample_db)).
    split; simpl; lia.
  - apply (proj2 (row_count (Delete 1) sample_db)).
    + repeat constructor; simpl; lia.
    + simpl; lia.
  - apply (proj1 (row_count (Delete 5) sample_db)). simpl; lia.
Defined.

Lemma primary_keys_stay_distinct_witness :
  NoDup (instance_keys sample_db) /\
  NoDup (instance_keys
           (serve_all [Create sample_request; Delete 1;
                       Update 2 sample_request; Create sample_request]
              sample_db)).
Proof.
  assert (NoDup (instance_keys sample_db)) as H
    by (repeat constructor; simpl; lia).
  split; [exact H|].
  exact (primary_keys_stay_distinct _ sample_db H).
Defined.

Lemma list_follows_writes_witness :
  fst (GET_instances (serve (Delete 1) sample_db)) =
    JSONResponse 200 [InstanceRead.mk 2 1 1 4 5 6 0 0 90 2 2 2] /\
  fst (GET_instances (serve (Update 1 sample_request) sample_db)) =
    JSONResponse 200
      [InstanceRead.mk 1 1 1 10 20 30 0 45 0 3 3 3;
       InstanceRead.mk 2 1 1 4 5 6 0 0 90 2 2 2].
Proof.
  assert (NoDup (instance_keys sample_db)) as H
    by (repeat constructor; simpl; lia).
  split.
  - exact (list_follows_writes (Delete 1) sample_db H).
  - apply (list_follows_writes (Update 1 sample_request) sample_db H).
    + simpl; lia.
    + split; simpl; lia.
Defined.

Lemma created_keys_distinct_witness :
  exists created,
    fst (create_all [sample_request; sample_request] sample_db) =
      map (JSONResponse 200) created /\
    NoDup (map InstanceRead.id created) /\
    forall r, In r created ->
              ~ In (InstanceRead.id r) (instance_keys sample_db).
Proof.
  apply (created_keys_distinct [sample_request; sample_request] sample_db).
  - repeat constructor; simpl; lia.
  - repeat constructor; simpl; lia.
Defined.

Lemma list_and_get_agree_witness :
  exists rs,
    GET_instances sample_db = (JSONResponse 200 rs, sample_db) /\
    forall r, In r rs <->
              fst (GET_instances_id (InstanceRead.id r) sample_db) =
              JSONResponse 200 r.
Proof.
  apply (list_and_get_agree sample_db).
  repeat constructor; simpl; lia.
Defined.

Lemma references_stay_resolved_witness :
  references_resolve sample_db /\
  references_resolve
    (serve_all [Create sample_request; Update 1 sample_request; Delete 2]
       sample_db).
Proof.
  assert (references_resolve sample_db) as H.
  { intros r [<-|[<-|[]]]; split; simpl; lia. }
  split; [exact H|].
  exact (references_stay_resolved _ sample_db H).
Defined.

Lemma answers_are_declared_witness :
  ids_fit (Update 5 request_without_item) = true /\
  In (answered (Update 5 request_without_item) sample_db)
     (declared (Update 5 request_without_item)) /\
  In (answered (@Get Z (2 ^ 63)) sample_db)
     (declared (@Get Z (2 ^ 63)) ++ [(500, None)]).
Proof.
  split; [reflexivity|]. split.
  - exact (proj2 (answers_are_declared (Update 5 request_without_item)
                    sample_db) eq_refl).
  - exact (proj1 (answers_are_declared (@Get Z (2 ^ 63)) sample_db)).
Defined.

(** An id just above the signed 64-bit range: the lookup is refused, the
    answer is a server error, and the database is left as it is. *)
Example scenario_wide_id :
  GET_instances_id (2 ^ 63) sample_db = (InternalServerError, sample_db) /\
  sent (fst (GET_instances_id (2 ^ 63) sample_db)) =
    (500, PlainText "Internal Server Error").
Proof. split; reflexivity. Qed.

(** What is sent for a successful delete and for a delete of a missing
    key. *)
Example scenario_delete_sent :
  sent (fst (DELETE_instances 1 sample_db)) = (204, NoBody) /\
  sent (fst (DELETE_instances 5 sample_db)) =
    (404, Detail "Instance not found").
Proof. split; reflexivity. Qed.
